(** * kubetest2 deployers: the kind (bootstrap) deployer and the capi
      (composite) deployer that wraps it.

    The deployers are glue around external programs (kind, kubectl,
    clusterctl).  Every call that leaves the process is an event; the outside
    world is an oracle that answers the n-th call of the process, so its
    answers may depend in any way on when a call is made and on all that was
    called before.  A deployer method is a function from the world, the
    receiver and the history to a Go result, the receiver after the call and
    the extended history. *)

From Stdlib Require Import String Ascii List ZArith Lia Bool DecimalString.
Import ListNotations.
Open Scope string_scope.
Open Scope list_scope.

(* ------------------------------------------------------------------ *)
(** ** The pieces of Go's standard library the deployers use *)

Module Go.

(** [bytes.Contains(b, subslice)]: does [sub] occur in [s]. *)
Fixpoint Contains (s sub : string) : bool :=
  if String.prefix sub s then true
  else match s with
       | EmptyString => false
       | String _ s' => Contains s' sub
       end.

(** [strings.Split(p, "/")]. *)
Fixpoint split_slash (cur p : string) : list string :=
  match p with
  | EmptyString => [cur]
  | String c p' =>
      if Ascii.eqb c "/"%char then cur :: split_slash "" p'
      else split_slash (cur ++ String c "")%string p'
  end.

(** One path element of [path.Clean]; [stack] holds the elements kept so
    far, the most recent first. *)
Definition clean_elem (rooted : bool) (stack : list string) (c : string)
  : list string :=
  if c =? "" then stack
  else if c =? "." then stack
  else if c =? ".." then
    match stack with
    | top :: rest => if top =? ".." then c :: stack else rest
    | [] => if rooted then [] else [c]
    end
  else c :: stack.

(** [path.Clean]: the shortest path equivalent to [p] by lexical
    processing; never the empty string. *)
Definition Clean (p : string) : string :=
  let rooted := String.prefix "/" p in
  let elems := rev (fold_left (clean_elem rooted) (split_slash "" p) []) in
  let body := String.concat "/" elems in
  let r := if rooted then ("/" ++ body)%string else body in
  if r =? "" then "." else r.

(** [path.Join] (and [filepath.Join] on Unix): the elements from the first
    non-empty one on, joined by slashes and cleaned; [""] when every
    element is empty. *)
Fixpoint Join (elem : list string) : string :=
  match elem with
  | [] => ""
  | e :: rest => if e =? "" then Join rest
                 else Clean (String.concat "/" elem)
  end.

(** [strconv.Itoa]. *)
Definition Itoa (i : Z) : string := NilZero.string_of_int (Z.to_int i).

(** [strconv.ParseBool]. *)
Definition ParseBool (s : string) : option bool :=
  if existsb (String.eqb s) ["1"; "t"; "T"; "TRUE"; "true"; "True"]
  then Some true
  else if existsb (String.eqb s) ["0"; "f"; "F"; "FALSE"; "false"; "False"]
  then Some false
  else None.

End Go.

(* ------------------------------------------------------------------ *)
(** ** Errors, results and the outside world *)

(** Go [error] values, as far as the deployers tell them apart. *)
Inductive error : Type :=
| ExitError (Stderr : string)
    (** [*exec.ExitError]: the process ran and exited non-zero *)
| OtherError (msg : string)
    (** any other error value *)
| QueryError (stdout stderr : string) (err : error)
    (** [fmt.Errorf("error stdout: %q, stderr: %q, err: %w", ...)] *).

Inductive Result (A : Type) : Type :=
| Ok (a : A)
| Err (e : error).
Arguments Ok {A} a.
Arguments Err {A} e.

(** [context.WithTimeout(context.Background(), d)], [d] in nanoseconds. *)
Inductive Context : Type :=
| WithTimeout (d : Z).

(** What an [exec.Cmd] stream is connected to. *)
Inductive File : Type :=
| nil_File
| os_Stdout
| os_Stderr
| StdoutPipe_of (Path : string) (Args : list string).

(** [exec.Cmd]; [ctx] is [None] for [exec.Command] and [Some c] for
    [exec.CommandContext(c, ...)]. *)
Record Cmd : Type := mkCmd {
  ctx : option Context;
  Path : string;
  Args : list string;
  Stdin : File;
  Stdout : File;
  Stderr : File
}.

Definition Command (name : string) (args : list string) : Cmd :=
  mkCmd None name args nil_File nil_File nil_File.
Definition CommandContext (c : Context) (name : string) (args : list string)
  : Cmd :=
  mkCmd (Some c) name args nil_File nil_File nil_File.
Definition with_Stdin (f : File) (c : Cmd) : Cmd :=
  mkCmd (ctx c) (Path c) (Args c) f (Stdout c) (Stderr c).
Definition with_Stdout (f : File) (c : Cmd) : Cmd :=
  mkCmd (ctx c) (Path c) (Args c) (Stdin c) f (Stderr c).
Definition with_Stderr (f : File) (c : Cmd) : Cmd :=
  mkCmd (ctx c) (Path c) (Args c) (Stdin c) (Stdout c) f.

(** The calls that leave the process. *)
Inductive Call : Type :=
| Println (s : string)
| ExecJUnit (name : string) (args : list string) (env : list string)
    (** [process.ExecJUnit] *)
| ExecJUnitContext (c : Context) (name : string) (args : list string)
    (env : list string)
    (** [process.ExecJUnitContext] *)
| Cmd_Output (c : Cmd)
| Cmd_StdoutPipe (c : Cmd)
| Cmd_Start (c : Cmd)
| Cmd_Wait (c : Cmd)
| TempDir (dir pattern : string)
| WriteFile (filename data : string) (perm : Z).

(** The answer of the world to a call: the bytes or the name it produced and
    the error, if any. *)
Record Response : Type := mkResponse {
  out : string;
  err : option error
}.

Definition Event : Type := Call * Response.
(** The history of a run, the oldest event first. *)
Definition Trace : Type := list Event.

Record World : Type := mkWorld {
  (** the answer to a call made after [n] earlier calls *)
  respond : nat -> Call -> Response;
  os_Environ : list string;
  (** [time.ParseDuration] *)
  ParseDuration : string -> Result Z;
  (** [strconv.ParseInt(s, 0, 64)], behind pflag's [IntVar] *)
  ParseInt : string -> Result Z
}.

(* ------------------------------------------------------------------ *)
(** ** A method of a receiver of type [S] *)

Definition M (S A : Type) : Type :=
  World -> S -> Trace -> Result A * S * Trace.

Definition ret {S A} (a : A) : M S A := fun _ s t => (Ok a, s, t).
Definition fail {S A} (e : error) : M S A := fun _ s t => (Err e, s, t).

(** Sequencing with Go's [if err != nil { return err }]. *)
Definition bind {S A B} (m : M S A) (k : A -> M S B) : M S B :=
  fun w s t =>
    match m w s t with
    | (Ok a, s', t') => k a w s' t'
    | (Err e, s', t') => (Err e, s', t')
    end.

(** The world's answer to a call, recorded in the history. *)
Definition call {S} (c : Call) : M S Response :=
  fun w s t => let r := respond w (length t) c in (Ok r, s, t ++ [(c, r)]).

(** A call whose only result is its error. *)
Definition call_err {S} (c : Call) : M S unit :=
  bind (call c) (fun r => match err r with
                          | None => ret tt
                          | Some e => fail e
                          end).

(** A call that yields bytes or a name, or fails. *)
Definition call_out {S} (c : Call) : M S string :=
  bind (call c) (fun r => match err r with
                          | None => ret (out r)
                          | Some e => fail e
                          end).

Definition get {S} : M S S := fun _ s t => (Ok s, s, t).
Definition put {S} (s : S) : M S unit := fun _ _ t => (Ok tt, s, t).
Definition world {S} : M S World := fun w s t => (Ok w, s, t).

(** A method of a field of the receiver, called through the pointer the
    receiver holds. *)
Definition on {S F A} (proj : S -> F) (inj : F -> S -> S) (m : M F A)
  : M S A :=
  fun w s t => let '(r, f, t') := m w (proj s) t in (r, inj f s, t').

Declare Scope go_scope.
Delimit Scope go_scope with go.
Notation "x <- m ;; k" := (bind m (fun x => k))
  (at level 61, m at next level, right associativity) : go_scope.
Notation "m ;; k" := (bind m (fun _ => k))
  (at level 61, right associativity) : go_scope.

(** The builtin [println]: recorded, and nothing comes back. *)
Definition println {S} (s : string) : M S unit :=
  fun _ d t => (Ok tt, d, t ++ [(Println s, mkResponse "" None)]).

(** The newline of a Go string literal. *)
Definition nl : string := String (ascii_of_nat 10) "".

(** [if cond { args = append(args, more...) }]. *)
Definition append_if (cond : bool) (args more : list string) : list string :=
  if cond then args ++ more else args.

(** [types.Options], the part the deployers read. *)
Record Options : Type := mkOptions {
  ShouldBuild : bool;
  ArtifactsDir : string
}.

(** A flag of a [pflag.FlagSet] over a receiver of type [T]: its name and
    what setting it from a command-line value does. *)
Record Flag (T : Type) : Type := mkFlag {
  flag_name : string;
  flag_set : string -> T -> Result T
}.
Arguments mkFlag {T}.
Arguments flag_name {T}.
Arguments flag_set {T}.
Definition FlagSet (T : Type) : Type := list (Flag T).

(** [FlagSet.Parse] over a tokenised command line: each [--name value] pair
    is looked up and set, in order; an unknown name or a value the flag
    refuses stops the parse. *)
Fixpoint Parse {T} (fs : FlagSet T) (args : list (string * string)) (d : T)
  : Result T :=
  match args with
  | [] => Ok d
  | (n, v) :: rest =>
      match find (fun f => flag_name f =? n) fs with
      | None => Err (OtherError ("unknown flag: --" ++ n)%string)
      | Some f => match flag_set f v d with
                  | Ok d' => Parse fs rest d'
                  | Err e => Err e
                  end
      end
  end.

(** [flags.StringVar(p, name, value, usage)]: the default is stored through
    [p] at once, and the flag stores every later value through [p]. *)
Definition StringVar {T} (p : string -> T -> T) (name value usage : string)
    (st : T * FlagSet T) : T * FlagSet T :=
  (p value (fst st),
   snd st ++ [mkFlag name (fun v d => Ok (p v d))]).

(** [flags.IntVar]. *)
Definition IntVar {T} (w : World) (p : Z -> T -> T) (name : string)
    (value : Z) (usage : string) (st : T * FlagSet T) : T * FlagSet T :=
  (p value (fst st),
   snd st ++ [mkFlag name (fun v d => match ParseInt w v with
                                      | Ok i => Ok (p i d)
                                      | Err e => Err e
                                      end)]).

(** [flags.BoolVar]. *)
Definition BoolVar {T} (p : bool -> T -> T) (name : string) (value : bool)
    (usage : string) (st : T * FlagSet T) : T * FlagSet T :=
  (p value (fst st),
   snd st ++ [mkFlag name (fun v d => match Go.ParseBool v with
                                      | Some b => Ok (p b d)
                                      | None => Err (OtherError "invalid syntax")
                                      end)]).

(* ------------------------------------------------------------------ *)
(** ** kubetest2-kind/deployer: the bootstrap deployer

    [New], [bindFlags], [Up], [Down] and [Build]; [IsUp], [DumpClusterLogs]
    and [Kubeconfig] of this deployer run no call the properties below speak
    of and are left out. *)

Module kinddeployer.

Definition Name : string := "kind".

(** well-known kind related constants *)
Definition kindDefaultBuiltImageName : string := "kindest/node:latest".

Record Deployer : Type := mkDeployer {
  commonOptions : Options;
  nodeImage : string;
  ClusterName : string;
  logLevel : string;
  logsDir : string;
  buildType : string;
  configPath : string;
  kubeconfigPath : string;
  kubeRoot : string;
  verbosity : Z
}.

(** Assignments through the pointers [bindFlags] hands to pflag. *)
Definition set_nodeImage (v : string) (d : Deployer) : Deployer :=
  mkDeployer (commonOptions d) v (ClusterName d) (logLevel d) (logsDir d)
    (buildType d) (configPath d) (kubeconfigPath d) (kubeRoot d)
    (verbosity d).
Definition set_ClusterName (v : string) (d : Deployer) : Deployer :=
  mkDeployer (commonOptions d) (nodeImage d) v (logLevel d) (logsDir d)
    (buildType d) (configPath d) (kubeconfigPath d) (kubeRoot d)
    (verbosity d).
Definition set_logLevel (v : string) (d : Deployer) : Deployer :=
  mkDeployer (commonOptions d) (nodeImage d) (ClusterName d) v (logsDir d)
    (buildType d) (configPath d) (kubeconfigPath d) (kubeRoot d)
    (verbosity d).
Definition set_configPath (v : string) (d : Deployer) : Deployer :=
  mkDeployer (commonOptions d) (nodeImage d) (ClusterName d) (logLevel d)
    (logsDir d) (buildType d) v (kubeconfigPath d) (kubeRoot d)
    (verbosity d).
Definition set_kubeconfigPath (v : string) (d : Deployer) : Deployer :=
  mkDeployer (commonOptions d) (nodeImage d) (ClusterName d) (logLevel d)
    (logsDir d) (buildType d) (configPath d) v (kubeRoot d) (verbosity d).
Definition set_kubeRoot (v : string) (d : Deployer) : Deployer :=
  mkDeployer (commonOptions d) (nodeImage d) (ClusterName d) (logLevel d)
    (logsDir d) (buildType d) (configPath d) (kubeconfigPath d) v
    (verbosity d).
Definition set_verbosity (v : Z) (d : Deployer) : Deployer :=
  mkDeployer (commonOptions d) (nodeImage d) (ClusterName d) (logLevel d)
    (logsDir d) (buildType d) (configPath d) (kubeconfigPath d)
    (kubeRoot d) v.

(** helper used to create & bind a flagset to the deployer *)
Definition bindFlags (w : World) (d : Deployer) : Deployer * FlagSet Deployer :=
  let flags := (d, []) in
  let flags := StringVar set_ClusterName
    "cluster-name" "kind-kubetest2" "the kind cluster --name" flags in
  let flags := StringVar set_logLevel
    "loglevel" "" "--loglevel for kind commands" flags in
  let flags := StringVar set_nodeImage
    "image-name" "" "the image name to use for build and up" flags in
  let flags := StringVar set_nodeImage
    "build-type" "" "--type for kind build node-image" flags in
  let flags := StringVar set_configPath
    "config" "" "--config for kind create cluster" flags in
  let flags := StringVar set_kubeconfigPath
    "kubeconfig" "" "--kubeconfig flag for kind create cluster" flags in
  let flags := StringVar set_kubeRoot
    "kube-root" "" "--kube-root flag for kind build node-image" flags in
  let flags := IntVar w set_verbosity
    "verbosity" 0 "--verbosity flag for kind" flags in
  flags.

(** New implements deployer.New for kind: the fields that are not flag
    controlled are set, the others are Go's zero values until [bindFlags]
    stores the defaults. *)
Definition New (w : World) (opts : Options) : Deployer * FlagSet Deployer :=
  let d := mkDeployer opts "" "" "" (Go.Join [ArtifactsDir opts; "logs"])
             "" "" "" "" 0 in
  bindFlags w d.

(** The argument vector [Up] builds. *)
Definition Up_args (d : Deployer) : list string :=
  let args := ["create"; "cluster"; "--name"; ClusterName d] in
  let args := append_if (negb (logLevel d =? ""))
                args ["--loglevel"; logLevel d] in
  let args :=
    if negb (nodeImage d =? "") then args ++ ["--image"; nodeImage d]
    else if ShouldBuild (commonOptions d)
    then args ++ ["--image"; kindDefaultBuiltImageName]
    else args in
  let args := append_if (negb (configPath d =? ""))
                args ["--config"; configPath d] in
  let args := append_if (negb (kubeconfigPath d =? ""))
                args ["--kubeconfig"; kubeconfigPath d] in
  let args := append_if (0 <? verbosity d)%Z
                args ["--verbosity"; Go.Itoa (verbosity d)] in
  args.

Definition Up : M Deployer unit :=
  (d <- get ;;
   let args := Up_args d in
   println ("Up(): creating kind cluster..." ++ nl)%string ;;
   w <- world ;;
   call_err (ExecJUnit "kind" args (os_Environ w)))%go.

(** The argument vector [Down] builds. *)
Definition Down_args (d : Deployer) : list string :=
  let args := ["delete"; "cluster"; "--name"; ClusterName d] in
  let args := append_if (negb (logLevel d =? ""))
                args ["--loglevel"; logLevel d] in
  args.

Definition Down : M Deployer unit :=
  (d <- get ;;
   let args := Down_args d in
   println ("Down(): deleting kind cluster..." ++ nl)%string ;;
   w <- world ;;
   call_err (ExecJUnit "kind" args (os_Environ w)))%go.

(** The argument vector [Build] builds. *)
Definition Build_args (d : Deployer) : list string :=
  let args := ["build"; "node-image"] in
  let args := append_if (negb (logLevel d =? ""))
                args ["--loglevel"; logLevel d] in
  let args := append_if (negb (buildType d =? ""))
                args ["--type"; buildType d] in
  let args := append_if (negb (kubeRoot d =? ""))
                args ["--kube-root"; kubeRoot d] in
  let args :=
    if negb (nodeImage d =? "") then args ++ ["--image"; nodeImage d]
    else if ShouldBuild (commonOptions d)
    then args ++ ["--image"; kindDefaultBuiltImageName]
    else args in
  args.

Definition Build : M Deployer unit :=
  (d <- get ;;
   let args := Build_args d in
   println ("Build(): building kind node image..." ++ nl)%string ;;
   w <- world ;;
   call_err (ExecJUnit "kind" args (os_Environ w)))%go.

End kinddeployer.

(* ------------------------------------------------------------------ *)
(** ** The capi deployer: the composite deployer

    The revision of the deployer that has the workload cluster name, the up
    timeout and the cached kubeconfig path. *)

Module capi.

Definition Name : string := "capi".

Record deployer : Type := mkdeployer {
  commonOptions : Options;
  kind : kinddeployer.Deployer;
  provider : string;
  kubernetesVersion : string;
  controlPlaneCount : string;
  workerCount : string;
  flavor : string;
  useExistingCluster : bool;
  installCalico : bool;
  kubecfgPath : string;
  upTimeout : string;
  workloadClusterName : string
}.

Definition set_kind (v : kinddeployer.Deployer) (d : deployer) : deployer :=
  mkdeployer (commonOptions d) v (provider d) (kubernetesVersion d)
    (controlPlaneCount d) (workerCount d) (flavor d) (useExistingCluster d)
    (installCalico d) (kubecfgPath d) (upTimeout d) (workloadClusterName d).
Definition set_provider (v : string) (d : deployer) : deployer :=
  mkdeployer (commonOptions d) (kind d) v (kubernetesVersion d)
    (controlPlaneCount d) (workerCount d) (flavor d) (useExistingCluster d)
    (installCalico d) (kubecfgPath d) (upTimeout d) (workloadClusterName d).
Definition set_kubernetesVersion (v : string) (d : deployer) : deployer :=
  mkdeployer (commonOptions d) (kind d) (provider d) v
    (controlPlaneCount d) (workerCount d) (flavor d) (useExistingCluster d)
    (installCalico d) (kubecfgPath d) (upTimeout d) (workloadClusterName d).
Definition set_controlPlaneCount (v : string) (d : deployer) : deployer :=
  mkdeployer (commonOptions d) (kind d) (provider d) (kubernetesVersion d)
    v (workerCount d) (flavor d) (useExistingCluster d)
    (installCalico d) (kubecfgPath d) (upTimeout d) (workloadClusterName d).
Definition set_workerCount (v : string) (d : deployer) : deployer :=
  mkdeployer (commonOptions d) (kind d) (provider d) (kubernetesVersion d)
    (controlPlaneCount d) v (flavor d) (useExistingCluster d)
    (installCalico d) (kubecfgPath d) (upTimeout d) (workloadClusterName d).
Definition set_flavor (v : string) (d : deployer) : deployer :=
  mkdeployer (commonOptions d) (kind d) (provider d) (kubernetesVersion d)
    (controlPlaneCount d) (workerCount d) v (useExistingCluster d)
    (installCalico d) (kubecfgPath d) (upTimeout d) (workloadClusterName d).
Definition set_useExistingCluster (v : bool) (d : deployer) : deployer :=
  mkdeployer (commonOptions d) (kind d) (provider d) (kubernetesVersion d)
    (controlPlaneCount d) (workerCount d) (flavor d) v
    (installCalico d) (kubecfgPath d) (upTimeout d) (workloadClusterName d).
Definition set_installCalico (v : bool) (d : deployer) : deployer :=
  mkdeployer (commonOptions d) (kind d) (provider d) (kubernetesVersion d)
    (controlPlaneCount d) (workerCount d) (flavor d) (useExistingCluster d)
    v (kubecfgPath d) (upTimeout d) (workloadClusterName d).
Definition set_kubecfgPath (v : string) (d : deployer) : deployer :=
  mkdeployer (commonOptions d) (kind d) (provider d) (kubernetesVersion d)
    (controlPlaneCount d) (workerCount d) (flavor d) (useExistingCluster d)
    (installCalico d) v (upTimeout d) (workloadClusterName d).
Definition set_upTimeout (v : string) (d : deployer) : deployer :=
  mkdeployer (commonOptions d) (kind d) (provider d) (kubernetesVersion d)
    (controlPlaneCount d) (workerCount d) (flavor d) (useExistingCluster d)
    (installCalico d) (kubecfgPath d) v (workloadClusterName d).
Definition set_workloadClusterName (v : string) (d : deployer) : deployer :=
  mkdeployer (commonOptions d) (kind d) (provider d) (kubernetesVersion d)
    (controlPlaneCount d) (workerCount d) (flavor d) (useExistingCluster d)
    (installCalico d) (kubecfgPath d) (upTimeout d) v.

(** A method of the bootstrap deployer, called as [d.kind.Method()]. *)
Definition d_kind {A} (m : M kinddeployer.Deployer A) : M deployer A :=
  on kind set_kind m.

(** [Kubeconfig]; on failure Go returns [("", err)], here [Err err]. *)
Definition Kubeconfig : M deployer string :=
  (d <- get ;;
   if negb (kubecfgPath d =? "") then ret (kubecfgPath d)
   else
     tmpdir <- call_out (TempDir "" "kubetest2-capi") ;;
     put (set_kubecfgPath (Go.Join [tmpdir; "kubeconfig.yaml"]) d) ;;
     d <- get ;;
     let args := ["get"; "kubeconfig"; workloadClusterName d] in
     let clusterctl := Command "clusterctl" args in
     lines <- call_out (Cmd_Output clusterctl) ;;
     call_err (WriteFile (kubecfgPath d) lines 384) ;;
     ret (kubecfgPath d))%go.

(** helper used to create & bind a flagset to the deployer *)
Definition bindFlags (st : deployer * FlagSet deployer)
  : deployer * FlagSet deployer :=
  let flags := st in
  let flags := StringVar set_provider
    "provider" "" "--provider flag for clusterctl" flags in
  let flags := StringVar set_kubernetesVersion
    "kubernetes-version" "" "--kubernetes-version flag for clusterctl"
    flags in
  let flags := StringVar set_controlPlaneCount
    "control-plane-machine-count" "1"
    "--control-plane-machine-count flag for clusterctl" flags in
  let flags := StringVar set_workerCount
    "worker-machine-count" "1" "--worker-machine-count flag for clusterctl"
    flags in
  let flags := StringVar set_flavor
    "flavor" "" "--flavor flag for clusterctl" flags in
  let flags := BoolVar set_useExistingCluster
    "use-existing-cluster" false
    "use the existing, currently targeted cluster as the management cluster"
    flags in
  let flags := StringVar set_upTimeout
    "up-timeout" "30m"
    "maximum time allotted for the --up command to complete" flags in
  let flags := BoolVar set_installCalico
    "install-calico" false
    "automatically install the Calico CNI when the cluster becomes available"
    flags in
  let flags := StringVar set_workloadClusterName
    "workload-cluster-name" "capi-workload-cluster"
    "the workload cluster name" flags in
  flags.

(** A flag of the bootstrap deployer stores through the pointer the
    composite deployer holds. *)
Definition kind_flag (f : Flag kinddeployer.Deployer) : Flag deployer :=
  mkFlag (flag_name f)
    (fun v d => match flag_set f v (kind d) with
                | Ok k => Ok (set_kind k d)
                | Err e => Err e
                end).

(** New implements deployer.New for capi *)
Definition New (w : World) (opts : Options) : deployer * FlagSet deployer :=
  let '(kind, flags) := kinddeployer.New w opts in
  let d := mkdeployer opts kind "" "" "" "" "" false false "" "" "" in
  bindFlags (d, map kind_flag flags).

(** The text [Up] looks for in the error stream of the provider query. *)
Definition notFound : string := "the server doesn't have a resource type".

(** [Up].  [defer cancel()] releases the context when [Up] returns; it
    starts nothing and is no event. *)
Definition Up : M deployer unit :=
  (d <- get ;;
   w <- world ;;
   match ParseDuration w (upTimeout d) with
   | Err e => fail e
   | Ok upTimeout =>
     let ctx := WithTimeout upTimeout in
     (if negb (useExistingCluster d) then d_kind kinddeployer.Up
      else ret tt) ;;
     println ("Up(): installing Cluster API..." ++ nl)%string ;;
     let args := ["get"; "providers"; "--all-namespaces";
                  ("--field-selector=metadata.name=infrastructure-"
                     ++ provider d)%string;
                  "--ignore-not-found"] in
     let kubectl := CommandContext ctx "kubectl" args in
     r <- call (Cmd_Output kubectl) ;;
     let lines := out r in
     match err r with
     | Some (ExitError stderr) =>
         if negb (Go.Contains stderr notFound)
         then fail (QueryError lines stderr (ExitError stderr))
         else ret tt
     | Some e => fail e
     | None => ret tt
     end ;;
     (if (String.length lines =? 0)%nat then
        let args := ["init"; "--infrastructure"; provider d] in
        call_err (ExecJUnitContext ctx "clusterctl" args (os_Environ w))
      else ret tt) ;;
     println "waiting for CAPI to start" ;;
     let args := ["wait"; "--for=condition=Available"; "--all";
                  "--all-namespaces"; "deployment"; "--timeout=-1m"] in
     call_err (ExecJUnitContext ctx "kubectl" args (os_Environ w)) ;;
     let args := ["config"; "cluster"; workloadClusterName d;
                  "--infrastructure"; provider d;
                  "--kubernetes-version"; kubernetesVersion d;
                  "--worker-machine-count"; workerCount d;
                  "--control-plane-machine-count"; controlPlaneCount d;
                  "--flavor"; flavor d] in
     let clusterctl := CommandContext ctx "clusterctl" args in
     let clusterctl := with_Stderr os_Stderr clusterctl in
     call_err (Cmd_StdoutPipe clusterctl) ;;
     let stdout := StdoutPipe_of (Path clusterctl) (Args clusterctl) in
     let kubectl := CommandContext ctx "kubectl" ["apply"; "-f"; "-"] in
     let kubectl := with_Stdin stdout kubectl in
     let kubectl := with_Stdout os_Stdout kubectl in
     let kubectl := with_Stderr os_Stderr kubectl in
     call_err (Cmd_Start clusterctl) ;;
     call_err (Cmd_Start kubectl) ;;
     call_err (Cmd_Wait clusterctl) ;;
     call_err (Cmd_Wait kubectl) ;;
     println "waiting for cluster to become ready" ;;
     let args := ["wait"; "--for=condition=Ready";
                  ("cluster/" ++ workloadClusterName d)%string;
                  "--timeout=-1m"] in
     call_err (ExecJUnitContext ctx "kubectl" args (os_Environ w)) ;;
     (if installCalico d then
        kubeconfig <- Kubeconfig ;;
        let args := ["--kubeconfig"; kubeconfig; "apply"; "-f";
          "https://docs.projectcalico.org/v3.12/manifests/calico.yaml"] in
        call_err (ExecJUnitContext ctx "kubectl" args (os_Environ w)) ;;
        let args := ["--kubeconfig"; kubeconfig; "wait";
                     "--for=condition=Available"; "--all";
                     "--all-namespaces"; "deployment"; "--timeout=-1m"] in
        call_err (ExecJUnitContext ctx "kubectl" args (os_Environ w))
      else ret tt) ;;
     ret tt
   end)%go.

Definition Down : M deployer unit :=
  (d <- get ;;
   w <- world ;;
   let args := ["delete"; "--ignore-not-found"; "--wait"; "cluster";
                kinddeployer.ClusterName (kind d)] in
   call_err (ExecJUnit "kubectl" args (os_Environ w)) ;;
   d_kind kinddeployer.Down)%go.

Definition Build : M deployer unit := d_kind kinddeployer.Build.

End capi.

(* ------------------------------------------------------------------ *)
(** ** Observing a run *)

Definition result_of {S A} (x : Result A * S * Trace) : Result A :=
  fst (fst x).
Definition receiver_of {S A} (x : Result A * S * Trace) : S := snd (fst x).
Definition trace_of {S A} (x : Result A * S * Trace) : Trace := snd x.

Definition failed {A} (r : Result A) : bool :=
  match r with Ok _ => false | Err _ => true end.

(** [l] begins with [p]. *)
Fixpoint has_prefix (p l : list string) {struct l} : bool :=
  match l, p with
  | _, [] => true
  | y :: l', x :: p' => (x =? y) && has_prefix p' l'
  | [], _ :: _ => false
  end.

(** The call starts the program [name] with an argument vector that begins
    with [p]. *)
Definition runs (name : string) (p : list string) (c : Call) : bool :=
  match c with
  | ExecJUnit n args _ => (n =? name) && has_prefix p args
  | ExecJUnitContext _ n args _ => (n =? name) && has_prefix p args
  | Cmd_Output c => (Path c =? name) && has_prefix p (Args c)
  | Cmd_Start c => (Path c =? name) && has_prefix p (Args c)
  | _ => false
  end.

(** The call is [Start] on a [name p...] command. *)
Definition starts (name : string) (p : list string) (c : Call) : bool :=
  match c with
  | Cmd_Start c => (Path c =? name) && has_prefix p (Args c)
  | _ => false
  end.

(** The call is [Wait] on a [name p...] command. *)
Definition waits (name : string) (p : list string) (c : Call) : bool :=
  match c with
  | Cmd_Wait c => (Path c =? name) && has_prefix p (Args c)
  | _ => false
  end.

Definition bootstrap_create : Call -> bool := runs "kind" ["create"; "cluster"].
Definition bootstrap_delete : Call -> bool := runs "kind" ["delete"; "cluster"].
Definition workload_delete : Call -> bool := runs "kubectl" ["delete"].
Definition provider_query : Call -> bool := runs "kubectl" ["get"; "providers"].
Definition init : Call -> bool := runs "clusterctl" ["init"].
Definition get_kubeconfig : Call -> bool :=
  runs "clusterctl" ["get"; "kubeconfig"].

(** How many calls of the history satisfy [p]. *)
Definition count (p : Call -> bool) (t : Trace) : nat :=
  length (filter p (map fst t)).

(** Is some call of the history a [p]. *)
Definition invoked (p : Call -> bool) (t : Trace) : bool :=
  existsb p (map fst t).

(** The context a subprocess call carries: [None] when the call starts or
    waits for no subprocess, [Some None] for a subprocess without a context. *)
Definition context_of (c : Call) : option (option Context) :=
  match c with
  | ExecJUnit _ _ _ => Some None
  | ExecJUnitContext x _ _ _ => Some (Some x)
  | Cmd_Output c | Cmd_StdoutPipe c | Cmd_Start c | Cmd_Wait c =>
      Some (ctx c)
  | Println _ | TempDir _ _ | WriteFile _ _ _ => None
  end.

(** The call starts or waits for a subprocess that carries no context. *)
Definition no_context (c : Call) : bool :=
  match context_of c with
  | Some None => true
  | _ => false
  end.

(** A non-zero exit that reports the missing resource type. *)
Definition not_found (r : Response) : bool :=
  match err r with
  | Some (ExitError stderr) => Go.Contains stderr capi.notFound
  | _ => false
  end.

(** The steps of the manifest pipe of [Up]. *)
Inductive Stage : Type :=
| StartProducer | StartConsumer | WaitProducer | WaitConsumer.

Definition stage (c : Call) : option Stage :=
  if starts "clusterctl" ["config"; "cluster"] c then Some StartProducer
  else if starts "kubectl" ["apply"; "-f"; "-"] c then Some StartConsumer
  else if waits "clusterctl" ["config"; "cluster"] c then Some WaitProducer
  else if waits "kubectl" ["apply"; "-f"; "-"] c then Some WaitConsumer
  else None.

Fixpoint stages (t : Trace) : list Stage :=
  match t with
  | [] => []
  | (c, _) :: t' => match stage c with
                    | Some s => s :: stages t'
                    | None => stages t'
                    end
  end.

(** The provider query lets [Up] go on: it succeeded, or it failed on the
    missing resource type. *)
Definition goes_on (r : Response) : bool :=
  match err r with
  | None => true
  | Some _ => not_found r
  end.

(** The full manifest pipe. *)
Definition pipeline : list Stage :=
  [StartProducer; StartConsumer; WaitProducer; WaitConsumer].

(** The answer to the first call of the history that satisfies [p]. *)
Fixpoint answer_to (p : Call -> bool) (t : Trace) : option Response :=
  match t with
  | [] => None
  | (c, r) :: t' => if p c then Some r else answer_to p t'
  end.

(** What the history holds after its first call that satisfies [p]. *)
Fixpoint after (p : Call -> bool) (t : Trace) : Trace :=
  match t with
  | [] => []
  | (c, _) :: t' => if p c then t' else after p t'
  end.

(** The answers to the [Wait] calls of the manifest pipe. *)
Definition waited (t : Trace) : list Response :=
  map snd (filter (fun e => match stage (fst e) with
                            | Some WaitProducer | Some WaitConsumer => true
                            | _ => false
                            end) t).

(** The call carries the deadline [T], unless it is the bootstrap create or
    the kubeconfig fetch, which carry no context at all. *)
Definition deadline_ok (T : Z) (c : Call) : bool :=
  match context_of c with
  | None => true
  | Some None => bootstrap_create c || get_kubeconfig c
  | Some (Some (WithTimeout T')) =>
      negb (bootstrap_create c || get_kubeconfig c) && (T' =? T)%Z
  end.

(** The error [Up] returns for a provider query that does not let it go
    on. *)
Definition query_failure (r : Response) : error :=
  match err r with
  | Some (ExitError stderr) => QueryError (out r) stderr (ExitError stderr)
  | Some e => e
  | None => OtherError ""
  end.

(** The workload-cluster delete of [Down]. *)
Definition Down_delete (w : World) (d : capi.deployer) : Call :=
  ExecJUnit "kubectl"
    ["delete"; "--ignore-not-found"; "--wait"; "cluster";
     kinddeployer.ClusterName (capi.kind d)] (os_Environ w).

(** The [init] of [Up] under the deadline [T]. *)
Definition Up_init (w : World) (d : capi.deployer) (T : Z) : Call :=
  ExecJUnitContext (WithTimeout T) "clusterctl"
    ["init"; "--infrastructure"; capi.provider d] (os_Environ w).

(** The argument vector holds the option [opt] followed by the value [v]. *)
Fixpoint has_option (opt v : string) (args : list string) : bool :=
  match args with
  | a :: rest =>
      ((a =? opt) && match rest with
                     | b :: _ => b =? v
                     | [] => false
                     end)
      || has_option opt v rest
  | [] => false
  end.

(** The call hands [opt v] to the program [name]. *)
Definition passes (name opt v : string) (c : Call) : bool :=
  match c with
  | ExecJUnit n args _ => (n =? name) && has_option opt v args
  | ExecJUnitContext _ n args _ => (n =? name) && has_option opt v args
  | Cmd_Output c => (Path c =? name) && has_option opt v (Args c)
  | Cmd_Start c => (Path c =? name) && has_option opt v (Args c)
  | _ => false
  end.

(** The bootstrap CLI's grammar as the specification writes it: an optional
    [opt v] pair, present when [v] is set. *)
Definition optional (opt v : string) : list string :=
  if v =? "" then [] else [opt; v].

(** The image of [create cluster] and [build node-image]: the explicit one,
    else the well-known one when a build was asked for. *)
Definition image_option (d : kinddeployer.Deployer) : list string :=
  if negb (kinddeployer.nodeImage d =? "")
  then ["--image"; kinddeployer.nodeImage d]
  else if ShouldBuild (kinddeployer.commonOptions d)
  then ["--image"; kinddeployer.kindDefaultBuiltImageName]
  else [].

(** [create cluster --name N [--loglevel L] [--image I] [--config C]
    [--kubeconfig K] [--verbosity V]]. *)
Definition create_cluster_spec (d : kinddeployer.Deployer) : list string :=
  ["create"; "cluster"; "--name"; kinddeployer.ClusterName d]
  ++ optional "--loglevel" (kinddeployer.logLevel d)
  ++ image_option d
  ++ optional "--config" (kinddeployer.configPath d)
  ++ optional "--kubeconfig" (kinddeployer.kubeconfigPath d)
  ++ (if (0 <? kinddeployer.verbosity d)%Z
      then ["--verbosity"; Go.Itoa (kinddeployer.verbosity d)] else []).

(** [build node-image [--loglevel L] [--type T] [--kube-root R]
    [--image I]]. *)
Definition build_node_image_spec (d : kinddeployer.Deployer) : list string :=
  ["build"; "node-image"]
  ++ optional "--loglevel" (kinddeployer.logLevel d)
  ++ optional "--type" (kinddeployer.buildType d)
  ++ optional "--kube-root" (kinddeployer.kubeRoot d)
  ++ image_option d.

(* ------------------------------------------------------------------ *)
(** ** Sample worlds and configurations *)

Definition calm_answer (c : Call) : Response :=
  match c with
  | TempDir _ _ => mkResponse "/tmp/kubetest2-capi042" None
  | _ => mkResponse "" None
  end.

Definition sample_ParseDuration (s : string) : Result Z :=
  if s =? "30m" then Ok 1800000000000%Z
  else Err (OtherError "time: invalid duration").

Definition sample_ParseInt (s : string) : Result Z :=
  match NilZero.int_of_string s with
  | Some i => Ok (Z.of_int i)
  | None => Err (OtherError "invalid syntax")
  end.

(** Every call succeeds and prints nothing. *)
Definition calm : World :=
  mkWorld (fun _ => calm_answer) ["HOME=/root"]
    sample_ParseDuration sample_ParseInt.

(** The calls that satisfy [p] get the answer [r]; every other call
    succeeds. *)
Definition answering (p : Call -> bool) (r : Response) : World :=
  mkWorld (fun _ c => if p c then r else calm_answer c) ["HOME=/root"]
    sample_ParseDuration sample_ParseInt.

Definition sample_Options : Options := mkOptions false "/artifacts".

(** Non-zero exits of kubectl and clusterctl. *)
Definition timed_out : Response :=
  mkResponse "" (Some (ExitError "error: timed out waiting for the condition")).
Definition no_such_cluster : Response :=
  mkResponse ""
    (Some (ExitError "Error: clusters.cluster.x-k8s.io not found")).
Definition no_resource_type (stdout : string) : Response :=
  mkResponse stdout
    (Some (ExitError "error: the server doesn't have a resource type")).

(** The deployers [New] returns and the command line leaves alone. *)
Definition default_kind : kinddeployer.Deployer :=
  fst (kinddeployer.New calm sample_Options).
Definition default_capi : capi.deployer :=
  fst (capi.New calm sample_Options).

(* ------------------------------------------------------------------ *)
(** ** The other verbs of the bootstrap deployer *)

(** [metadata.NewJUnitError(err, output)]. *)
Inductive JUnitError : Type :=
| NewJUnitError (e : error) (output : string).

(** What the process reads of its host besides the calls above. *)
Record Host : Type := mkHost {
  (** [os.UserHomeDir()] *)
  UserHomeDir : Result string;
  (** [exec.CombinedOutputLines(cmd)] of kubetest2's exec package: the
      lines the command printed, and its error *)
  CombinedOutputLines : Cmd -> list string * option error
}.

Module kindverbs.

(** [Kubeconfig] of the bootstrap deployer. *)
Definition Kubeconfig (h : Host) (d : kinddeployer.Deployer) : Result string :=
  if negb (kinddeployer.kubeconfigPath d =? "")
  then Ok (kinddeployer.kubeconfigPath d)
  else match UserHomeDir h with
       | Err e => Err e
       | Ok home => Ok (Go.Join [home; ".kube"; "config"])
       end.

(** [IsUp]: Go's [(up, err)]. *)
Definition IsUp (h : Host) (d : kinddeployer.Deployer)
  : bool * option JUnitError :=
  let (lines, err) :=
    CombinedOutputLines h (Command "kubectl" ["get"; "nodes"; "-o=name"]) in
  match err with
  | Some e => (false, Some (NewJUnitError e (String.concat nl lines)))
  | None => ((0 <? length lines)%nat, None)
  end.

(** The argument vector [DumpClusterLogs] builds. *)
Definition DumpClusterLogs_args (d : kinddeployer.Deployer) : list string :=
  let args := ["export"; "logs"; "--name"; kinddeployer.ClusterName d;
               kinddeployer.logsDir d] in
  let args := append_if (negb (kinddeployer.logLevel d =? ""))
                args ["--loglevel"; kinddeployer.logLevel d] in
  args.

Definition DumpClusterLogs : M kinddeployer.Deployer unit :=
  (d <- get ;;
   let args := DumpClusterLogs_args d in
   println ("DumpClusterLogs(): exporting kind cluster logs..." ++ nl)%string ;;
   w <- world ;;
   call_err (ExecJUnit "kind" args (os_Environ w)))%go.

End kindverbs.

(* ------------------------------------------------------------------ *)
(** ** The deployer that builds from source: [Build] and
       [verifyBuildFlags] *)

Module srcbuild.

(** The build options of the deployer, as far as it reads and writes
    them. *)
Record BuildOptions : Type := mkBuildOptions {
  RepoRoot : string;
  StageLocation : string
}.

Record deployer : Type := mkdeployer {
  (** [commonOptions.RunID()] *)
  RunID : string;
  Options : BuildOptions;
  (** the [RepoRoot] of the deployer itself *)
  repoRoot : string;
  Version : string
}.

(** The methods of the build options, each called on the options as they
    are at the call. *)
Inductive BuildCall : Type :=
| Validate (o : BuildOptions)
| Build_ (o : BuildOptions)
| Stage (o : BuildOptions) (version : string).

(** Their answers: [Build_] yields the version. *)
Record Builder : Type := mkBuilder {
  validates : BuildOptions -> option error;
  builds : BuildOptions -> Result string;
  stages_ : BuildOptions -> string -> option error
}.

(** The errors of [Build]. *)
Inductive BuildError : Type :=
| RequiredRepoRoot
    (** [fmt.Errorf("required repo-root when building from source")] *)
| ErrorStaging (e : error)
    (** [fmt.Errorf("error staging build: %v", err)] *)
| Returned (e : error)
    (** an error handed on as it is *).

(** [strings.TrimPrefix]. *)
Definition TrimPrefix (s p : string) : string :=
  if String.prefix p s
  then String.substring (String.length p) (String.length s - String.length p) s
  else s.

Definition set_Options (o : BuildOptions) (d : deployer) : deployer :=
  mkdeployer (RunID d) o (repoRoot d) (Version d).
Definition set_Version (v : string) (d : deployer) : deployer :=
  mkdeployer (RunID d) (Options d) (repoRoot d) v.

(** [verifyBuildFlags]: the error, the deployer after the call and the
    calls made. *)
Definition verifyBuildFlags (b : Builder) (d : deployer)
  : option BuildError * deployer * list BuildCall :=
  if repoRoot d =? "" then (Some RequiredRepoRoot, d, [])
  else
    let d := set_Options (mkBuildOptions (repoRoot d)
                            (StageLocation (Options d))) d in
    (option_map Returned (validates b (Options d)), d, [Validate (Options d)]).

(** [Build]. *)
Definition Build (b : Builder) (d : deployer)
  : option BuildError * deployer * list BuildCall :=
  match verifyBuildFlags b d with
  | (Some e, d, t) => (Some e, d, t)
  | (None, d, t) =>
      let t := t ++ [Build_ (Options d)] in
      match builds b (Options d) with
      | Err e => (Some (Returned e), d, t)
      | Ok version =>
          let version := TrimPrefix version "v" in
          let version := (version ++ ".0+" ++ RunID d)%string in
          if negb (StageLocation (Options d) =? "") then
            let t := t ++ [Stage (Options d) version] in
            match stages_ b (Options d) version with
            | Some e => (Some (ErrorStaging e), d, t)
            | None => (None, set_Version version d, t)
            end
          else (None, set_Version version d, t)
      end
  end.

End srcbuild.

(* ------------------------------------------------------------------ *)
(** ** Observing a run of [Up] further *)

(** The last event of a history. *)
Fixpoint final (t : Trace) : option Event :=
  match t with
  | [] => None
  | e :: t' => match t' with
               | [] => Some e
               | _ :: _ => final t'
               end
  end.

(** An event [Up] goes on after: a call without error, or the provider
    query failing on the missing resource type. *)
Definition passed (e : Event) : bool :=
  match err (snd e) with
  | None => true
  | Some _ => provider_query (fst e) && not_found (snd e)
  end.

(** The commands [Start] was called on. *)
Fixpoint started (t : Trace) : list Cmd :=
  match t with
  | [] => []
  | (Cmd_Start c, _) :: t' => c :: started t'
  | _ :: t' => started t'
  end.

(** The render command of [Up] under the deadline [T]: every option is
    passed, also with an empty value. *)
Definition render_cmd (d : capi.deployer) (T : Z) : Cmd :=
  mkCmd (Some (WithTimeout T)) "clusterctl"
    ["config"; "cluster"; capi.workloadClusterName d;
     "--infrastructure"; capi.provider d;
     "--kubernetes-version"; capi.kubernetesVersion d;
     "--worker-machine-count"; capi.workerCount d;
     "--control-plane-machine-count"; capi.controlPlaneCount d;
     "--flavor"; capi.flavor d]
    nil_File nil_File os_Stderr.

(** The apply command of [Up]: it reads the pipe of the render command. *)
Definition apply_cmd (d : capi.deployer) (T : Z) : Cmd :=
  mkCmd (Some (WithTimeout T)) "kubectl" ["apply"; "-f"; "-"]
    (StdoutPipe_of "clusterctl" (Args (render_cmd d T))) os_Stdout os_Stderr.

(** The wait of [Up] for the workload cluster. *)
Definition ready_wait (w : World) (d : capi.deployer) (T : Z) : Call :=
  ExecJUnitContext (WithTimeout T) "kubectl"
    ["wait"; "--for=condition=Ready";
     ("cluster/" ++ capi.workloadClusterName d)%string; "--timeout=-1m"]
    (os_Environ w).

(** The files a history wrote: name, bytes, permissions. *)
Fixpoint written (t : Trace) : list (string * string * Z) :=
  match t with
  | [] => []
  | (WriteFile f data perm, _) :: t' => (f, data, perm) :: written t'
  | _ :: t' => written t'
  end.

(** The call runs the program [name]. *)
Definition program (name : string) (c : Call) : bool := runs name [] c.

(** The call is [ioutil.TempDir]. *)
Definition is_TempDir (c : Call) : bool :=
  match c with
  | TempDir _ _ => true
  | _ => false
  end.

Definition no_space : Response :=
  mkResponse "" (Some (OtherError "mkdir /tmp/kubetest2-capi042: no space left on device")).

(** A builder that builds v1.20.0 and stages without error. *)
Definition sample_Builder : srcbuild.Builder :=
  srcbuild.mkBuilder (fun _ => None) (fun _ => Ok "v1.20.0") (fun _ _ => None).

(** A builder whose build fails. *)
Definition broken_Builder : srcbuild.Builder :=
  srcbuild.mkBuilder (fun _ => None)
    (fun _ => Err (ExitError "make: *** [all] Error 2")) (fun _ _ => None).

Definition sample_source : srcbuild.deployer :=
  srcbuild.mkdeployer "run-42"
    (srcbuild.mkBuildOptions "" "gs://bucket/ci") "/src/k8s" "".

(* ------------------------------------------------------------------ *)
(** ** Reasoning about a run: weakest preconditions *)

(** [post] holds of the outcome of [m] run from receiver [s] and history
    [t]. *)
Definition wp {S A} (m : M S A) (w : World) (s : S) (t : Trace)
    (post : Result A * S * Trace -> Prop) : Prop :=
  post (m w s t).

(** The steps of [capi.Up] from the wait for the management plane to the
    end, under the context [ctx], for the configuration [d] read at the start
    of [Up]: what [Up] does once the install check has let it go on. *)
Definition Up_rest (ctx : Context) (d : capi.deployer) (w : World)
  : M capi.deployer unit :=
  (println "waiting for CAPI to start" ;;
   let args := ["wait"; "--for=condition=Available"; "--all";
                "--all-namespaces"; "deployment"; "--timeout=-1m"] in
   call_err (ExecJUnitContext ctx "kubectl" args (os_Environ w)) ;;
   let args := ["config"; "cluster"; capi.workloadClusterName d;
                "--infrastructure"; capi.provider d;
                "--kubernetes-version"; capi.kubernetesVersion d;
                "--worker-machine-count"; capi.workerCount d;
                "--control-plane-machine-count"; capi.controlPlaneCount d;
                "--flavor"; capi.flavor d] in
   let clusterctl := CommandContext ctx "clusterctl" args in
   let clusterctl := with_Stderr os_Stderr clusterctl in
   call_err (Cmd_StdoutPipe clusterctl) ;;
   let stdout := StdoutPipe_of (Path clusterctl) (Args clusterctl) in
   let kubectl := CommandContext ctx "kubectl" ["apply"; "-f"; "-"] in
   let kubectl := with_Stdin stdout kubectl in
   let kubectl := with_Stdout os_Stdout kubectl in
   let kubectl := with_Stderr os_Stderr kubectl in
   call_err (Cmd_Start clusterctl) ;;
   call_err (Cmd_Start kubectl) ;;
   call_err (Cmd_Wait clusterctl) ;;
   call_err (Cmd_Wait kubectl) ;;
   println "waiting for cluster to become ready" ;;
   let args := ["wait"; "--for=condition=Ready";
                ("cluster/" ++ capi.workloadClusterName d)%string;
                "--timeout=-1m"] in
   call_err (ExecJUnitContext ctx "kubectl" args (os_Environ w)) ;;
   (if capi.installCalico d then
      kubeconfig <- capi.Kubeconfig ;;
      let args := ["--kubeconfig"; kubeconfig; "apply"; "-f";
        "https://docs.projectcalico.org/v3.12/manifests/calico.yaml"] in
      call_err (ExecJUnitContext ctx "kubectl" args (os_Environ w)) ;;
      let args := ["--kubeconfig"; kubeconfig; "wait";
                   "--for=condition=Available"; "--all";
                   "--all-namespaces"; "deployment"; "--timeout=-1m"] in
      call_err (ExecJUnitContext ctx "kubectl" args (os_Environ w))
    else ret tt) ;;
   ret tt)%go.

Arguments Go.Contains : simpl never.
Arguments Go.Join : simpl never.
Arguments kinddeployer.Up_args : simpl never.
Arguments kinddeployer.Down_args : simpl never.
Arguments kinddeployer.Build_args : simpl never.
Arguments String.append : simpl never.

Section Rules.
Context {S : Type}.
Variables (w : World) (s : S) (t : Trace).

Lemma wp_bind {A B} (m : M S A) (k : A -> M S B) post :
  wp m w s t (fun x => match x with
                       | (Ok a, s', t') => wp (k a) w s' t' post
                       | (Err e, s', t') => post (Err e, s', t')
                       end) ->
  wp (bind m k) w s t post.
Proof. unfold wp, bind. destruct (m w s t) as [[[a|e] s'] t']; auto. Qed.

Lemma wp_ret {A} (a : A) (post : _ -> Prop) :
  post (Ok a, s, t) -> wp (ret a) w s t post.
Proof. auto. Qed.

Lemma wp_fail {A} e (post : Result A * S * Trace -> Prop) :
  post (Err e, s, t) -> wp (fail e) w s t post.
Proof. auto. Qed.

Lemma wp_get (post : _ -> Prop) :
  post (Ok s, s, t) -> wp get w s t post.
Proof. auto. Qed.

Lemma wp_put s' (post : _ -> Prop) :
  post (Ok tt, s', t) -> wp (put s') w s t post.
Proof. auto. Qed.

Lemma wp_world (post : _ -> Prop) :
  post (Ok w, s, t) -> wp world w s t post.
Proof. auto. Qed.

Lemma wp_println x (post : _ -> Prop) :
  post (Ok tt, s, t ++ [(Println x, mkResponse "" None)]) ->
  wp (println x) w s t post.
Proof. auto. Qed.

Lemma wp_call c (post : _ -> Prop) :
  (forall r, r = respond w (length t) c ->
     post (Ok r, s, t ++ [(c, r)])) ->
  wp (call c) w s t post.
Proof. intros H. apply (H _ eq_refl). Qed.

Lemma wp_call_err c (post : _ -> Prop) :
  (forall r, r = respond w (length t) c -> err r = None ->
     post (Ok tt, s, t ++ [(c, r)])) ->
  (forall r e, r = respond w (length t) c -> err r = Some e ->
     post (Err e, s, t ++ [(c, r)])) ->
  wp (call_err c) w s t post.
Proof.
  intros H1 H2. unfold wp, call_err, bind, call. cbv zeta.
  destruct (err (respond w (length t) c)) eqn:E.
  - apply (H2 _ _ eq_refl E).
  - apply (H1 _ eq_refl E).
Qed.

Lemma wp_call_out c (post : _ -> Prop) :
  (forall r, r = respond w (length t) c -> err r = None ->
     post (Ok (out r), s, t ++ [(c, r)])) ->
  (forall r e, r = respond w (length t) c -> err r = Some e ->
     post (Err e, s, t ++ [(c, r)])) ->
  wp (call_out c) w s t post.
Proof.
  intros H1 H2. unfold wp, call_out, bind, call. cbv zeta.
  destruct (err (respond w (length t) c)) eqn:E.
  - apply (H2 _ _ eq_refl E).
  - apply (H1 _ eq_refl E).
Qed.

Lemma wp_if {A} (b : bool) (m1 m2 : M S A) post :
  (b = true -> wp m1 w s t post) -> (b = false -> wp m2 w s t post) ->
  wp (if b then m1 else m2) w s t post.
Proof. destruct b; auto. Qed.

Lemma wp_on {F A} (proj : S -> F) (inj : F -> S -> S) (m : M F A) post :
  wp m w (proj s) t (fun x => match x with
                              | (r, f, t') => post (r, inj f s, t')
                              end) ->
  wp (on proj inj m) w s t post.
Proof. unfold wp, on. destruct (m w (proj s) t) as [[r f] t']. auto. Qed.

Lemma wp_mono {A} (m : M S A) (pre post : _ -> Prop) :
  wp m w s t pre -> (forall x, pre x -> post x) -> wp m w s t post.
Proof. unfold wp. auto. Qed.

Lemma wp_outcome {A} (m : M S A) (post : _ -> Prop) :
  wp m w s t post -> post (m w s t).
Proof. auto. Qed.

End Rules.

(** One step of a method under [wp]. *)
Ltac wp_step :=
  lazymatch goal with
  | |- wp (bind (println "waiting for CAPI to start") _) _ _ _ _ =>
      fail "the rest of Up"
  | |- wp (bind _ _) _ _ _ _ => apply wp_bind
  | |- wp (ret _) _ _ _ _ => apply wp_ret
  | |- wp (fail _) _ _ _ _ => apply wp_fail
  | |- wp get _ _ _ _ => apply wp_get
  | |- wp (put _) _ _ _ _ => apply wp_put
  | |- wp world _ _ _ _ => apply wp_world
  | |- wp (println _) _ _ _ _ => apply wp_println
  | |- wp (call _) _ _ _ _ => apply wp_call; intros ? ?
  | |- wp (call_err _) _ _ _ _ =>
      apply wp_call_err; [intros ? ? ? | intros ? ? ? ?]
  | |- wp (call_out _) _ _ _ _ =>
      apply wp_call_out; [intros ? ? ? | intros ? ? ? ?]
  | |- wp (if _ then _ else _) _ _ _ _ => apply wp_if; intros ?
  | |- wp (on _ _ _) _ _ _ _ => apply wp_on
  | |- wp (capi.d_kind _) _ _ _ _ => unfold capi.d_kind
  | |- wp kinddeployer.Up _ _ _ _ => unfold kinddeployer.Up
  | |- wp kinddeployer.Down _ _ _ _ => unfold kinddeployer.Down
  | |- wp kinddeployer.Build _ _ _ _ => unfold kinddeployer.Build
  | |- wp capi.Kubeconfig _ _ _ _ => unfold capi.Kubeconfig
  | |- wp capi.Up _ _ _ _ => unfold capi.Up
  | |- wp capi.Down _ _ _ _ => unfold capi.Down
  | |- wp (match ?x with _ => _ end) _ _ _ _ => destruct x eqn:?
  | |- wp (let _ := _ in _) _ _ _ _ => cbv zeta
  | |- wp _ _ _ _ _ => fail "no rule for this method"
  | |- _ => progress cbv beta iota
  end.

Ltac wp_run := repeat wp_step.

(** In the body of [Up_rest] there is no rest to stop at. *)
Ltac wp_rest :=
  unfold Up_rest; apply wp_bind; repeat wp_step.

(** Appends to a history, flattened. *)
Ltac flat := rewrite <- ?app_assoc; cbn [app].

(* ------------------------------------------------------------------ *)
(** ** Go's library *)

Lemma Clean_nonempty : forall p, Go.Clean p <> "".
Proof.
  intros p. unfold Go.Clean.
  destruct (_ =? "") eqn:E; [discriminate|].
  intros H. rewrite H in E. discriminate.
Qed.

Lemma Join_kubeconfig_nonempty : forall tmpdir,
  Go.Join [tmpdir; "kubeconfig.yaml"] <> "".
Proof.
  intros tmpdir. unfold Go.Join.
  destruct (tmpdir =? ""); cbn [String.eqb Ascii.eqb Bool.eqb];
    apply Clean_nonempty.
Qed.

Example Join_tmpdir :
  Go.Join ["/tmp/kubetest2-capi042"; "kubeconfig.yaml"]
  = "/tmp/kubetest2-capi042/kubeconfig.yaml".
Proof. reflexivity. Qed.

Example Clean_rooted : Go.Clean "/../a//b/./c/.." = "/a/b".
Proof. reflexivity. Qed.

Example Clean_dotdot : Go.Clean "a/b/../../.." = "..".
Proof. reflexivity. Qed.

Example Contains_notFound :
  Go.Contains "error: the server doesn't have a resource type" capi.notFound
  = true.
Proof. reflexivity. Qed.

Lemma length_zero : forall s, (String.length s =? 0)%nat = (s =? "").
Proof. destruct s; reflexivity. Qed.

(* ------------------------------------------------------------------ *)
(** ** Flag parsing *)

Lemma Parse_app {T} (fs : FlagSet T) a b d0 :
  Parse fs (a ++ b) d0 =
  match Parse fs a d0 with Ok d1 => Parse fs b d1 | Err e => Err e end.
Proof.
  revert d0. induction a as [|[n v] a IH]; intros d0; cbn; [reflexivity|].
  destruct (find _ fs); [|reflexivity].
  destruct (flag_set f v d0); [apply IH|reflexivity].
Qed.

(** A property every flag named on the command line keeps is kept by the
    parse. *)
Lemma Parse_invariant {T} (P : T -> Prop) (named : string -> Prop)
    (fs : FlagSet T) :
  (forall f v d d', In f fs -> named (flag_name f) ->
     flag_set f v d = Ok d' -> P d -> P d') ->
  forall args d0 d,
    (forall n v, In (n, v) args -> named n) ->
    Parse fs args d0 = Ok d -> P d0 -> P d.
Proof.
  intros Hfs args. induction args as [|[n v] args IH]; intros d0 d Hn; cbn.
  - intros [= ->]. auto.
  - destruct (find _ fs) eqn:F; [|discriminate].
    destruct (flag_set f v d0) eqn:E; [|discriminate].
    intros HP Hd0. apply find_some in F. destruct F as [F N].
    apply String.eqb_eq in N.
    apply (IH a d); [intros; apply (Hn n0 v0); now right|assumption|].
    apply (Hfs f v d0 a F); [rewrite N; apply (Hn n v); now left|assumption..].
Qed.

Lemma kind_flags_keep_buildType : forall w opts f v d d',
  In f (snd (kinddeployer.New w opts)) -> flag_set f v d = Ok d' ->
  kinddeployer.buildType d' = kinddeployer.buildType d.
Proof.
  intros w opts f v d d' Hin. cbn in Hin.
  repeat (destruct Hin as [<-|Hin]); try contradiction; cbn.
  all: try (intros [= <-]; reflexivity).
  destruct (ParseInt w v); intros [= <-]; reflexivity.
Qed.

Lemma kind_flags_keep_nodeImage : forall w opts f v d d',
  In f (snd (kinddeployer.New w opts)) -> flag_set f v d = Ok d' ->
  flag_name f <> "image-name" -> flag_name f <> "build-type" ->
  kinddeployer.nodeImage d' = kinddeployer.nodeImage d.
Proof.
  intros w opts f v d d' Hin. cbn in Hin.
  repeat (destruct Hin as [<-|Hin]); try contradiction; cbn.
  all: try (intros [= <-]; reflexivity).
  all: try (intros; congruence).
  destruct (ParseInt w v); intros [= <-]; reflexivity.
Qed.

(** No flag stores through [buildType]: it stays Go's zero value. *)
Lemma parsed_buildType_empty : forall w opts args d,
  Parse (snd (kinddeployer.New w opts)) args (fst (kinddeployer.New w opts))
    = Ok d ->
  kinddeployer.buildType d = "".
Proof.
  intros w opts args d H.
  refine (Parse_invariant (fun d => kinddeployer.buildType d = "")
            (fun _ => True) (snd (kinddeployer.New w opts)) _
            args (fst (kinddeployer.New w opts)) d _ H eq_refl).
  - intros f v d1 d2 Hin _ Hset Hd1.
    rewrite (kind_flags_keep_buildType w opts f v d1 d2 Hin Hset). exact Hd1.
  - auto.
Qed.

(* ------------------------------------------------------------------ *)
(** ** The argument vectors of the bootstrap deployer *)

Lemma Up_args_spec : forall d,
  kinddeployer.Up_args d = create_cluster_spec d.
Proof.
  intros d. unfold kinddeployer.Up_args, create_cluster_spec, append_if,
    optional, image_option.
  destruct (kinddeployer.logLevel d =? ""), (kinddeployer.nodeImage d =? ""),
    (ShouldBuild (kinddeployer.commonOptions d)),
    (kinddeployer.configPath d =? ""), (kinddeployer.kubeconfigPath d =? ""),
    (0 <? kinddeployer.verbosity d)%Z; reflexivity.
Qed.

Lemma Build_args_spec : forall d,
  kinddeployer.Build_args d = build_node_image_spec d.
Proof.
  intros d. unfold kinddeployer.Build_args, build_node_image_spec, append_if,
    optional, image_option.
  destruct (kinddeployer.logLevel d =? ""), (kinddeployer.nodeImage d =? ""),
    (ShouldBuild (kinddeployer.commonOptions d)),
    (kinddeployer.buildType d =? ""), (kinddeployer.kubeRoot d =? "");
    reflexivity.
Qed.

Lemma has_option_intro : forall opt v l1 l2,
  has_option opt v (l1 ++ opt :: v :: l2) = true.
Proof.
  intros opt v l1 l2. induction l1 as [|a l1 IH].
  - cbn. now rewrite !String.eqb_refl.
  - cbn [app has_option]. rewrite IH. apply orb_true_r.
Qed.

Lemma image_option_set : forall d,
  kinddeployer.nodeImage d <> "" ->
  image_option d = ["--image"; kinddeployer.nodeImage d].
Proof.
  intros d H. unfold image_option.
  destruct (String.eqb_spec (kinddeployer.nodeImage d) "");
    [contradiction|reflexivity].
Qed.

Lemma Up_args_image : forall d,
  kinddeployer.nodeImage d <> "" ->
  has_option "--image" (kinddeployer.nodeImage d) (kinddeployer.Up_args d)
    = true.
Proof.
  intros d H. rewrite Up_args_spec. unfold create_cluster_spec.
  rewrite (image_option_set d H). rewrite app_assoc.
  apply has_option_intro.
Qed.

Lemma Build_args_image : forall d,
  kinddeployer.nodeImage d <> "" ->
  has_option "--image" (kinddeployer.nodeImage d) (kinddeployer.Build_args d)
    = true.
Proof.
  intros d H. rewrite Build_args_spec. unfold build_node_image_spec.
  rewrite (image_option_set d H). rewrite !app_assoc.
  apply has_option_intro.
Qed.

Lemma Down_args_prefix : forall d,
  has_prefix ["delete"; "cluster"] (kinddeployer.Down_args d) = true.
Proof.
  intros d. unfold kinddeployer.Down_args, append_if.
  destruct (negb _); reflexivity.
Qed.

Lemma Up_args_prefix : forall d,
  has_prefix ["create"; "cluster"] (kinddeployer.Up_args d) = true.
Proof. intros d. rewrite Up_args_spec. reflexivity. Qed.

(* ------------------------------------------------------------------ *)
(** ** The calls of the bootstrap deployer *)

Lemma kind_Up_calls : forall w k t,
  map fst (trace_of (kinddeployer.Up w k t)) =
  map fst t ++ [Println ("Up(): creating kind cluster..." ++ nl)%string;
                ExecJUnit "kind" (kinddeployer.Up_args k) (os_Environ w)].
Proof.
  intros. unfold kinddeployer.Up, call_err, bind, get, println, world, call.
  cbv zeta. destruct (err _); cbn; rewrite !map_app, <- app_assoc; reflexivity.
Qed.

Lemma kind_Down_calls : forall w k t,
  map fst (trace_of (kinddeployer.Down w k t)) =
  map fst t ++ [Println ("Down(): deleting kind cluster..." ++ nl)%string;
                ExecJUnit "kind" (kinddeployer.Down_args k) (os_Environ w)].
Proof.
  intros. unfold kinddeployer.Down, call_err, bind, get, println, world, call.
  cbv zeta. destruct (err _); cbn; rewrite !map_app, <- app_assoc; reflexivity.
Qed.

Lemma kind_Build_calls : forall w k t,
  map fst (trace_of (kinddeployer.Build w k t)) =
  map fst t ++ [Println ("Build(): building kind node image..." ++ nl)%string;
                ExecJUnit "kind" (kinddeployer.Build_args k) (os_Environ w)].
Proof.
  intros. unfold kinddeployer.Build, call_err, bind, get, println, world, call.
  cbv zeta. destruct (err _); cbn; rewrite !map_app, <- app_assoc; reflexivity.
Qed.

(* ------------------------------------------------------------------ *)
(** ** The build-type flag *)

(** C9.  With [--build-type bazel] on the command line of the bootstrap
    deployer, [Build] runs [kind build node-image --image bazel]: the value
    went to the node image, [buildType] is still empty and no [--type bazel]
    is passed. *)
Lemma build_type_flag_never_reaches_type :
  let (d0, flags) := kinddeployer.New calm sample_Options in
  exists d,
    Parse flags [("build-type", "bazel")] d0 = Ok d /\
    kinddeployer.buildType d = "" /\
    kinddeployer.Build_args d = ["build"; "node-image"; "--image"; "bazel"] /\
    has_option "--type" "bazel" (kinddeployer.Build_args d) = false /\
    invoked (passes "kind" "--type" "bazel")
      (trace_of (kinddeployer.Build calm d [])) = false.
Proof.
  eexists. split; [reflexivity|]. repeat split; reflexivity.
Qed.

(** C10, as stated, fails: the value [bazel] parsed for [build-type] is not
    passed as [--image bazel] when [image-name] comes later on the command
    line, and an empty value passes no [--image] at all. *)
Lemma build_type_value_lost_or_empty :
  let (d0, flags) := kinddeployer.New calm sample_Options in
  (exists d,
     Parse flags [("build-type", "bazel");
                  ("image-name", "kindest/node:v1.18.0")] d0 = Ok d /\
     has_option "--image" "bazel" (kinddeployer.Up_args d) = false /\
     has_option "--image" "bazel" (kinddeployer.Build_args d) = false) /\
  (exists d,
     Parse flags [("build-type", "")] d0 = Ok d /\
     has_option "--image" "" (kinddeployer.Up_args d) = false /\
     has_option "--image" "" (kinddeployer.Build_args d) = false).
Proof.
  split; eexists; (split; [reflexivity|split; reflexivity]).
Qed.

(** C10, amended.  The flag [build-type] stores through the node-image
    field: for every non-empty value [X] parsed for it that no later
    [image-name] or [build-type] on the command line overwrites, the node
    image is [X], both [Up] and [Build] pass [--image X] to kind, and, as no
    flag stores through [buildType], [Build] runs
    [build node-image [--loglevel L] [--kube-root R] --image X], with no
    [--type] option. *)
Theorem build_type_flag_feeds_image : forall w opts pre post X d,
  X <> "" ->
  (forall n v, In (n, v) post -> n <> "image-name" /\ n <> "build-type") ->
  Parse (snd (kinddeployer.New w opts))
    (pre ++ ("build-type", X) :: post) (fst (kinddeployer.New w opts))
    = Ok d ->
  kinddeployer.nodeImage d = X /\
  kinddeployer.buildType d = "" /\
  (forall w', invoked (passes "kind" "--image" X)
                (trace_of (kinddeployer.Up w' d [])) = true) /\
  (forall w', invoked (passes "kind" "--image" X)
                (trace_of (kinddeployer.Build w' d [])) = true) /\
  kinddeployer.Build_args d =
    ["build"; "node-image"]
    ++ optional "--loglevel" (kinddeployer.logLevel d)
    ++ optional "--kube-root" (kinddeployer.kubeRoot d)
    ++ ["--image"; X].
Proof.
  intros w opts pre post X d HX Hpost H.
  pose proof (parsed_buildType_empty w opts _ d H) as Hbt.
  rewrite Parse_app in H.
  destruct (Parse _ pre _) as [d1|] eqn:Hpre; [|discriminate].
  change (Parse (snd (kinddeployer.New w opts)) post
            (kinddeployer.set_nodeImage X d1) = Ok d) in H.
  assert (Himg : kinddeployer.nodeImage d = X).
  { refine (Parse_invariant (fun d => kinddeployer.nodeImage d = X)
              (fun n => n <> "image-name" /\ n <> "build-type")
              (snd (kinddeployer.New w opts)) _ post _ d Hpost H eq_refl).
    intros f v d2 d3 Hin [N1 N2] Hset Hd2.
    rewrite (kind_flags_keep_nodeImage w opts f v d2 d3 Hin Hset N1 N2).
    exact Hd2. }
  assert (Hne : kinddeployer.nodeImage d <> "") by (rewrite Himg; exact HX).
  split; [exact Himg|]. split; [exact Hbt|].
  split; [|split].
  - intros w'. unfold invoked. rewrite kind_Up_calls. cbn.
    rewrite <- Himg, (Up_args_image d Hne). reflexivity.
  - intros w'. unfold invoked. rewrite kind_Build_calls. cbn.
    rewrite <- Himg, (Build_args_image d Hne). reflexivity.
  - rewrite Build_args_spec. unfold build_node_image_spec.
    rewrite Hbt, (image_option_set d Hne), Himg. reflexivity.
Qed.

Lemma build_type_flag_feeds_image_witness :
  exists d,
    Parse (snd (kinddeployer.New calm sample_Options))
      ([("loglevel", "debug")]
         ++ ("build-type", "bazel") :: [("kube-root", "/src/k8s")])
      (fst (kinddeployer.New calm sample_Options)) = Ok d /\
    kinddeployer.nodeImage d = "bazel".
Proof.
  eexists. split; [reflexivity|].
  refine (proj1 (build_type_flag_feeds_image calm sample_Options
            [("loglevel", "debug")] [("kube-root", "/src/k8s")] "bazel" _
            _ _ eq_refl)).
  - discriminate.
  - intros n v [[= <- <-]|[]]. split; discriminate.
Defined.

(* ------------------------------------------------------------------ *)
(** ** Down *)

(** C1, as stated, fails: when the workload-cluster delete exits non-zero,
    [Down] makes no call to kind at all. *)
Lemma Down_skips_bootstrap_after_failed_delete :
  let run := capi.Down (answering workload_delete timed_out) default_capi [] in
  invoked workload_delete (trace_of run) = true /\
  invoked bootstrap_delete (trace_of run) = false.
Proof. split; reflexivity. Qed.

(** C1, amended.  [Down] invokes the bootstrap deployer's [Down] exactly
    when the workload-cluster delete succeeds; when that command fails,
    [Down] returns its error and the bootstrap delete is not invoked. *)
Theorem Down_bootstrap_iff_delete_succeeds : forall w d,
  let run := capi.Down w d [] in
  match err (respond w 0 (Down_delete w d)) with
  | None => invoked bootstrap_delete (trace_of run) = true
  | Some e => invoked bootstrap_delete (trace_of run) = false
              /\ result_of run = Err e
  end.
Proof.
  intros w d run. subst run.
  unfold capi.Down, capi.d_kind, on, call_err, bind, get, world, call, ret,
    fail.
  cbn [length app]. fold (Down_delete w d).
  destruct (err (respond w 0 (Down_delete w d))) eqn:E.
  - split; reflexivity.
  - destruct (kinddeployer.Down w (capi.kind d) _) as [[r k] t'] eqn:K.
    pose proof (kind_Down_calls w (capi.kind d)
                  [(Down_delete w d, respond w 0 (Down_delete w d))]) as C.
    rewrite K in C. unfold invoked, trace_of in *. cbn [snd] in *.
    rewrite C, existsb_app. apply orb_true_iff. right.
    cbn [existsb]. apply orb_true_iff. right. apply orb_true_iff. left.
    unfold bootstrap_delete, runs.
    rewrite (Down_args_prefix (capi.kind d)). reflexivity.
Qed.

(** The cluster [Down] deletes is named by the bootstrap deployer's
    [ClusterName], whatever the workload cluster name is. *)
Lemma Down_delete_names_kind_cluster : forall w d,
  nth_error (map fst (trace_of (capi.Down w d []))) 0 =
  Some (ExecJUnit "kubectl"
          ["delete"; "--ignore-not-found"; "--wait"; "cluster";
           kinddeployer.ClusterName (capi.kind d)] (os_Environ w)).
Proof.
  intros w d. pattern (capi.Down w d []). apply wp_outcome.
  wp_run; reflexivity.
Qed.

(** C8.  With [--workload-cluster-name wl], [Down] runs
    [kubectl delete --ignore-not-found --wait cluster kind-kubetest2], the
    bootstrap cluster's name, and deletes no cluster named [wl]. *)
Lemma Down_deletes_the_bootstrap_name :
  exists d,
    Parse (snd (capi.New calm sample_Options))
      [("workload-cluster-name", "wl")] (fst (capi.New calm sample_Options))
      = Ok d /\
    capi.workloadClusterName d = "wl" /\
    kinddeployer.ClusterName (capi.kind d) = "kind-kubetest2" /\
    nth_error (map fst (trace_of (capi.Down calm d []))) 0 =
      Some (ExecJUnit "kubectl"
              ["delete"; "--ignore-not-found"; "--wait"; "cluster";
               "kind-kubetest2"] (os_Environ calm)) /\
    invoked (fun c => workload_delete c && passes "kubectl" "cluster" "wl" c)
      (trace_of (capi.Down calm d [])) = false.
Proof. eexists. split; [reflexivity|]. repeat split; reflexivity. Qed.

(* ------------------------------------------------------------------ *)
(** ** Kubeconfig *)

(** C6.  When [clusterctl get kubeconfig] fails on the first call, the call
    returns the error, yet the path is already stored in [kubecfgPath]: the
    next call returns that path, of a file never written, and runs no
    command. *)
Lemma Kubeconfig_failure_is_cached :
  let w := answering get_kubeconfig no_such_cluster in
  let first := capi.Kubeconfig w default_capi [] in
  let second := capi.Kubeconfig w (receiver_of first) (trace_of first) in
  capi.kubecfgPath default_capi = "" /\
  failed (result_of first) = true /\
  capi.kubecfgPath (receiver_of first)
    = "/tmp/kubetest2-capi042/kubeconfig.yaml" /\
  result_of second = Ok "/tmp/kubetest2-capi042/kubeconfig.yaml" /\
  trace_of second = trace_of first /\
  count get_kubeconfig (trace_of second) = 1.
Proof. repeat split; reflexivity. Qed.

(** C7.  With no path configured, of two consecutive successful
    [Kubeconfig] calls the second returns the path of the first and adds
    nothing to the history: [clusterctl get kubeconfig] runs exactly once. *)
Theorem Kubeconfig_memoized : forall w d p1 d1 t1 p2 d2 t2,
  capi.kubecfgPath d = "" ->
  capi.Kubeconfig w d [] = (Ok p1, d1, t1) ->
  capi.Kubeconfig w d1 t1 = (Ok p2, d2, t2) ->
  p2 = p1 /\ t2 = t1 /\ count get_kubeconfig t2 = 1.
Proof.
  intros w d p1 d1 t1 p2 d2 t2 Hd.
  pattern (capi.Kubeconfig w d []). apply wp_outcome.
  wp_run; try discriminate.
  - rewrite Hd in *. discriminate.
  - intros [= <- <- <-]. unfold bind, get.
    cbn [capi.kubecfgPath capi.set_kubecfgPath].
    destruct (String.eqb_spec (Go.Join [out r; "kubeconfig.yaml"]) "")
      as [J|J].
    + destruct (Join_kubeconfig_nonempty _ J).
    + cbn. intros [= <- <- <-]. repeat split.
Qed.

Lemma Kubeconfig_memoized_witness :
  let path := "/tmp/kubetest2-capi042/kubeconfig.yaml" in
  let first := capi.Kubeconfig calm default_capi [] in
  let second := capi.Kubeconfig calm (receiver_of first) (trace_of first) in
  capi.kubecfgPath default_capi = "" /\
  result_of first = Ok path /\
  result_of second = Ok path /\
  count get_kubeconfig (trace_of second) = 1.
Proof.
  intros path first second.
  split; [reflexivity|]. split; [reflexivity|]. split; [reflexivity|].
  refine (proj2 (proj2 (Kubeconfig_memoized calm default_capi
            path (receiver_of first) (trace_of first)
            path (receiver_of second) (trace_of second)
            eq_refl eq_refl eq_refl))).
Defined.

(* ------------------------------------------------------------------ *)
(** ** Up *)

Lemma stages_app : forall a b, stages (a ++ b) = stages a ++ stages b.
Proof.
  induction a as [|[c r] a IH]; intros b; cbn; [reflexivity|].
  rewrite IH. destruct (stage c); reflexivity.
Qed.

Lemma waited_app : forall a b, waited (a ++ b) = waited a ++ waited b.
Proof. intros. unfold waited. now rewrite filter_app, map_app. Qed.

Lemma count_app : forall p a b, count p (a ++ b) = count p a + count p b.
Proof. intros. unfold count. now rewrite map_app, filter_app, length_app. Qed.

Lemma answer_to_app : forall p a b r,
  answer_to p a = Some r -> answer_to p (a ++ b) = Some r.
Proof.
  induction a as [|[c r'] a IH]; intros b r; cbn; [discriminate|].
  destruct (p c); auto.
Qed.

Lemma after_app : forall p a b r,
  answer_to p a = Some r -> after p (a ++ b) = after p a ++ b.
Proof.
  induction a as [|[c r'] a IH]; intros b r; cbn; [discriminate|].
  destruct (p c); eauto.
Qed.

(** What the rest of [Up] adds to the history. *)
Lemma Up_rest_adds : forall T d w s t,
  wp (Up_rest (WithTimeout T) d w) w s t
    (fun x => exists new,
       trace_of x = t ++ new /\ new <> [] /\
       count init new = 0 /\
       forallb (deadline_ok T) (map fst new) = true /\
       (exists n, stages new = firstn n pipeline) /\
       (failed (result_of x) = false -> stages new = pipeline) /\
       (forall r e, In r (waited new) -> err r = Some e ->
          result_of x = Err e)).
Proof.
  intros T d w s t.
  wp_rest.
  all: (eexists; split; [cbn [trace_of snd]; flat; reflexivity|]).
  all: (split; [discriminate|]).
  all: cbn; rewrite ?Z.eqb_refl.
  all: repeat split; try reflexivity; try discriminate.
  all: try (intros r' e' HIn; repeat (destruct HIn as [<-|HIn]); try contradiction; congruence).
  all: try (exists 0; reflexivity).
  all: try (exists 1; reflexivity).
  all: try (exists 2; reflexivity).
  all: try (exists 3; reflexivity).
  all: try (exists 4; reflexivity).
Qed.

(** Hand the rest of [Up] over to [Up_rest_adds]: [refine] checks that what
    is left of [capi.Up] is [Up_rest]. *)
Ltac wp_hand_over :=
  lazymatch goal with
  | |- wp (bind (println "waiting for CAPI to start") _) ?w ?s ?t _ =>
      lazymatch goal with
      | H : ParseDuration w (capi.upTimeout ?d) = Ok ?T |- _ =>
          let x := fresh "x" in
          let new := fresh "new" in
          let Htr := fresh "Htr" in
          refine (wp_mono w s t _ _ _ (Up_rest_adds T d w s t) _);
          intros x (new & Htr & ?Hne & ?Hinit & ?Hdl & ?Hpre & ?Hok & ?Hwait);
          cbv beta iota; rewrite Htr
      end
  | |- _ => idtac
  end.

Ltac forget_answers :=
  repeat match goal with
         | H : _ = respond _ _ _ |- _ => clear H
         end.

(** The install check of [Up]. *)
Lemma Up_install_check : forall w d r,
  let run := capi.Up w d [] in
  answer_to provider_query (trace_of run) = Some r ->
  if goes_on r then
    after provider_query (trace_of run) <> [] /\
    (if out r =? "" then
       count init (trace_of run) = 1 /\
       exists T, ParseDuration w (capi.upTimeout d) = Ok T /\
                 hd_error (map fst (after provider_query (trace_of run)))
                 = Some (Up_init w d T)
     else count init (trace_of run) = 0)
  else after provider_query (trace_of run) = [] /\
       result_of run = Err (query_failure r).
Proof.
  intros w d r run. subst run. revert r.
  pattern (capi.Up w d []). apply wp_outcome.
  wp_run.
  all: wp_hand_over.
  all: forget_answers.
  all: cbn [trace_of result_of fst snd].
  all: rewrite ?count_app, ?Hinit, ?Nat.add_0_r.
  all: flat.
  all: intros r' Hans; cbn in Hans; try discriminate Hans; injection Hans as <-.
  all: unfold goes_on, not_found, query_failure.
  all: repeat match goal with
              | H : negb _ = true |- _ => apply negb_true_iff in H
              | H : negb _ = false |- _ => apply negb_false_iff in H
              | H : (String.length _ =? 0)%nat = _ |- _ =>
                  rewrite length_zero in H
              end.
  all: repeat match goal with
              | H : ?x = _ |- context [?x] => rewrite H
              end.
  all: cbn.
  all: repeat split; try discriminate; try reflexivity; try assumption.
  all: try (eexists; split; reflexivity).
Qed.

(** C3.  When the provider query of [Up] succeeds, [init] is not invoked if
    it printed at least one line, and is invoked exactly once, as
    [clusterctl init --infrastructure <provider>] right after the query, if
    it printed nothing. *)
Theorem provider_query_decides_init : forall w d r,
  let t := trace_of (capi.Up w d []) in
  answer_to provider_query t = Some r ->
  err r = None ->
  if out r =? "" then
    count init t = 1 /\
    exists T, ParseDuration w (capi.upTimeout d) = Ok T /\
              hd_error (map fst (after provider_query t))
              = Some (Up_init w d T)
  else count init t = 0.
Proof.
  intros w d r t Hans Hr. subst t.
  pose proof (Up_install_check w d r Hans) as H.
  unfold goes_on in H. rewrite Hr in H. apply H.
Qed.

Lemma provider_query_decides_init_witness :
  let t := trace_of (capi.Up calm default_capi []) in
  answer_to provider_query t = Some (mkResponse "" None) /\
  count init t = 1.
Proof.
  split; [reflexivity|].
  exact (proj1 (provider_query_decides_init calm default_capi
                  (mkResponse "" None) eq_refl eq_refl)).
Defined.

(** C4, as stated, fails: a query that exits non-zero on the missing
    resource type and has printed a line is not treated as not installed,
    [Up] goes on without [init]. *)
Lemma missing_resource_type_with_output_skips_init :
  let w := answering provider_query (no_resource_type "infrastructure-aws") in
  let run := capi.Up w default_capi [] in
  answer_to provider_query (trace_of run)
    = Some (no_resource_type "infrastructure-aws") /\
  not_found (no_resource_type "infrastructure-aws") = true /\
  result_of run = Ok tt /\
  invoked init (trace_of run) = false.
Proof. repeat split; reflexivity. Qed.

(** C4, amended.  A provider query that fails with the missing resource
    type in its error stream does not abort [Up]: [Up] goes on and decides on
    the captured output as after a success, so with no output [init] is run
    (not installed) and with output it is skipped.  Every other failure of
    the query makes [Up] return an error at once, the query being its last
    call. *)
Theorem provider_query_failure : forall w d r e,
  let run := capi.Up w d [] in
  answer_to provider_query (trace_of run) = Some r ->
  err r = Some e ->
  if not_found r then
    after provider_query (trace_of run) <> [] /\
    (if out r =? "" then
       count init (trace_of run) = 1 /\
       exists T, ParseDuration w (capi.upTimeout d) = Ok T /\
                 hd_error (map fst (after provider_query (trace_of run)))
                 = Some (Up_init w d T)
     else count init (trace_of run) = 0)
  else after provider_query (trace_of run) = [] /\
       result_of run = Err (query_failure r).
Proof.
  intros w d r e run Hans Hr. subst run.
  pose proof (Up_install_check w d r Hans) as H.
  unfold goes_on in H. rewrite Hr in H. exact H.
Qed.

Lemma provider_query_failure_witness :
  let w := answering provider_query (no_resource_type "") in
  let run := capi.Up w default_capi [] in
  answer_to provider_query (trace_of run) = Some (no_resource_type "") /\
  after provider_query (trace_of run) <> [] /\
  count init (trace_of run) = 1.
Proof.
  intros w run. split; [reflexivity|].
  pose proof (provider_query_failure w default_capi (no_resource_type "")
                _ eq_refl eq_refl) as H.
  exact (conj (proj1 H) (proj1 (proj2 H))).
Defined.

(** C2.  The pipe steps of every run of [Up] are an initial part of: start
    the render command, start the apply command, wait for the render
    command, wait for the apply command; a run that succeeds has made all
    four; and an error of either wait is the error [Up] returns. *)
Theorem Up_pipe : forall w d,
  let run := capi.Up w d [] in
  (exists n, stages (trace_of run) = firstn n pipeline) /\
  (failed (result_of run) = false -> stages (trace_of run) = pipeline) /\
  (forall r e, In r (waited (trace_of run)) -> err r = Some e ->
     result_of run = Err e).
Proof.
  intros w d run. subst run. pattern (capi.Up w d []). apply wp_outcome.
  wp_run.
  all: wp_hand_over.
  all: forget_answers.
  all: cbn [trace_of result_of fst snd].
  all: rewrite ?stages_app, ?waited_app.
  all: cbn.
  all: try (split; [assumption|split; assumption]).
  all: split; [exists 0; reflexivity|split; [discriminate|intros ? ? []]].
Qed.

(** Every call of [Up] is as [deadline_ok] wants it. *)
Lemma Up_deadline_ok : forall w d,
  match ParseDuration w (capi.upTimeout d) with
  | Ok T => forallb (deadline_ok T) (map fst (trace_of (capi.Up w d [])))
            = true
  | Err _ => trace_of (capi.Up w d []) = []
  end.
Proof.
  intros w d. pattern (capi.Up w d []). apply wp_outcome.
  wp_run.
  all: wp_hand_over.
  all: forget_answers.
  all: cbv beta iota; cbn [trace_of result_of fst snd].
  all: rewrite ?map_app, ?forallb_app.
  all: cbn.
  all: rewrite ?Up_args_prefix, ?Z.eqb_refl.
  all: cbn.
  all: try reflexivity; assumption.
Qed.

(** C5, as stated, fails: in a run of [Up] that creates the bootstrap
    cluster and installs Calico, the kind create and the kubeconfig fetch run
    with no context. *)
Lemma Up_skips_the_deadline_twice :
  let d := capi.set_installCalico true default_capi in
  let run := capi.Up calm d [] in
  result_of run = Ok tt /\
  invoked (fun c => bootstrap_create c && no_context c) (trace_of run)
    = true /\
  invoked (fun c => get_kubeconfig c && no_context c) (trace_of run) = true.
Proof. repeat split; reflexivity. Qed.

(** C5, amended.  Every subprocess call and wait of a run of [Up] carries
    the deadline of the configured up-timeout, except the create of the
    bootstrap deployer and the kubeconfig fetch, which carry no context. *)
Theorem Up_deadline : forall w d c r,
  In (c, r) (trace_of (capi.Up w d [])) ->
  exists T,
    ParseDuration w (capi.upTimeout d) = Ok T /\
    match context_of c with
    | None => True
    | Some k => k = if bootstrap_create c || get_kubeconfig c then None
                    else Some (WithTimeout T)
    end.
Proof.
  intros w d c r HIn.
  pose proof (Up_deadline_ok w d) as H.
  destruct (ParseDuration w (capi.upTimeout d)) as [T|e].
  - exists T. split; [reflexivity|].
    rewrite forallb_forall in H.
    specialize (H c (in_map fst _ _ HIn)). unfold deadline_ok in H.
    destruct (context_of c) as [[[T']|]|]; [| |exact I].
    + apply andb_true_iff in H. destruct H as [H1 H2].
      apply negb_true_iff in H1. rewrite H1.
      apply Z.eqb_eq in H2. now subst.
    + now rewrite H.
  - rewrite H in HIn. destruct HIn.
Qed.

Lemma Up_deadline_witness :
  let c := Up_init calm default_capi 1800000000000 in
  In (c, mkResponse "" None) (trace_of (capi.Up calm default_capi [])) /\
  exists T,
    ParseDuration calm (capi.upTimeout default_capi) = Ok T /\
    match context_of c with
    | None => True
    | Some k => k = if bootstrap_create c || get_kubeconfig c then None
                    else Some (WithTimeout T)
    end.
Proof.
  intros c.
  assert (HIn : In (c, mkResponse "" None)
                  (trace_of (capi.Up calm default_capi []))).
  { do 4 right. left. reflexivity. }
  split; [exact HIn|].
  exact (Up_deadline calm default_capi c _ HIn).
Defined.

Lemma Up_pipe_witness :
  stages (trace_of (capi.Up calm default_capi [])) = pipeline.
Proof.
  exact (proj1 (proj2 (Up_pipe calm default_capi)) eq_refl).
Defined.

Lemma Down_bootstrap_iff_delete_succeeds_witness :
  invoked bootstrap_delete (trace_of (capi.Down calm default_capi [])) = true.
Proof.
  exact (Down_bootstrap_iff_delete_succeeds calm default_capi).
Defined.

(* ------------------------------------------------------------------ *)
(** ** Further properties of the deployers *)



(** X1.  [Up] of the bootstrap deployer prints its banner and runs one
    subprocess, [kind create cluster --name N [--loglevel L] [--image I]
    [--config C] [--kubeconfig K] [--verbosity V]] with the process
    environment; it returns the error of that subprocess as it is and leaves
    the deployer unchanged. *)
Theorem kind_Up_runs_create_cluster : forall w d t,
  let c := ExecJUnit "kind" (create_cluster_spec d) (os_Environ w) in
  let t1 := t ++ [(Println ("Up(): creating kind cluster..." ++ nl)%string,
                   mkResponse "" None)] in
  let r := respond w (length t1) c in
  kinddeployer.Up w d t =
  (match err r with None => Ok tt | Some e => Err e end, d, t1 ++ [(c, r)]).
Proof.
  intros w d t. cbv zeta. rewrite <- Up_args_spec.
  unfold kinddeployer.Up, call_err, bind, get, println, world, call.
  cbv zeta. destruct (err _); reflexivity.
Qed.

(** X2.  [Build] of the bootstrap deployer runs one subprocess,
    [kind build node-image [--loglevel L] [--type T] [--kube-root R]
    [--image I]], returns its error as it is and leaves the deployer
    unchanged. *)
Theorem kind_Build_runs_build_node_image : forall w d t,
  let c := ExecJUnit "kind" (build_node_image_spec d) (os_Environ w) in
  let t1 := t ++ [(Println ("Build(): building kind node image..." ++ nl)%string,
                   mkResponse "" None)] in
  let r := respond w (length t1) c in
  kinddeployer.Build w d t =
  (match err r with None => Ok tt | Some e => Err e end, d, t1 ++ [(c, r)]).
Proof.
  intros w d t. cbv zeta. rewrite <- Build_args_spec.
  unfold kinddeployer.Build, call_err, bind, get, println, world, call.
  cbv zeta. destruct (err _); reflexivity.
Qed.

(** X3.  [DumpClusterLogs] runs one subprocess,
    [kind export logs --name N <logsDir> [--loglevel L]], the directory
    before the log level, and returns its error as it is. *)
Theorem kind_DumpClusterLogs_runs_export_logs : forall w d t,
  let c := ExecJUnit "kind"
             (["export"; "logs"; "--name"; kinddeployer.ClusterName d;
               kinddeployer.logsDir d]
              ++ optional "--loglevel" (kinddeployer.logLevel d))
             (os_Environ w) in
  let t1 := t ++ [(Println ("DumpClusterLogs(): exporting kind cluster logs..."
                            ++ nl)%string, mkResponse "" None)] in
  let r := respond w (length t1) c in
  kindverbs.DumpClusterLogs w d t =
  (match err r with None => Ok tt | Some e => Err e end, d, t1 ++ [(c, r)]).
Proof.
  intros w d t. cbv zeta.
  unfold kindverbs.DumpClusterLogs, kindverbs.DumpClusterLogs_args, append_if,
    optional, call_err, bind, get, println, world, call.
  cbv zeta. destruct (kinddeployer.logLevel d =? ""); cbn [negb app];
    destruct (err _); reflexivity.
Qed.

(** X4.  [Kubeconfig] of the bootstrap deployer returns the configured
    path without asking for the home directory; with none configured it is
    [<home>/.kube/config], and fails exactly when the home directory is not
    known.  It never returns the empty path. *)
Theorem kind_Kubeconfig_cases : forall h d,
  (kinddeployer.kubeconfigPath d <> "" ->
     kindverbs.Kubeconfig h d = Ok (kinddeployer.kubeconfigPath d)) /\
  (kinddeployer.kubeconfigPath d = "" ->
     kindverbs.Kubeconfig h d =
     match UserHomeDir h with
     | Ok home => Ok (Go.Join [home; ".kube"; "config"])
     | Err e => Err e
     end) /\
  kindverbs.Kubeconfig h d <> Ok "".
Proof.
  intros h d. unfold kindverbs.Kubeconfig.
  destruct (String.eqb_spec (kinddeployer.kubeconfigPath d) "") as [E|E]; cbn [negb].
  - split; [contradiction|]. split; [reflexivity|].
    destruct (UserHomeDir h) as [home|e]; [|discriminate].
    intros [= J]. unfold Go.Join in J.
    destruct (home =? ""); cbn [String.eqb Ascii.eqb Bool.eqb] in J;
      apply (Clean_nonempty _ J).
  - split; [reflexivity|]. split; [contradiction|]. congruence.
Qed.

(** X5.  [IsUp] reports up exactly when [kubectl get nodes -o=name]
    succeeds and prints at least one line; when it fails the error is a
    JUnit error that carries the printed lines joined by newlines. *)
Theorem kind_IsUp_cases : forall h d,
  let (lines, e) :=
    CombinedOutputLines h (Command "kubectl" ["get"; "nodes"; "-o=name"]) in
  (fst (kindverbs.IsUp h d) = true <-> e = None /\ lines <> []) /\
  (snd (kindverbs.IsUp h d) =
   option_map (fun e => NewJUnitError e (String.concat nl lines)) e).
Proof.
  intros h d. unfold kindverbs.IsUp.
  destruct (CombinedOutputLines h _) as [lines [e|]]; cbn.
  - split; [|reflexivity]. split; [discriminate|intros [? _]; discriminate].
  - split; [|reflexivity]. destruct lines; cbn; split; try discriminate.
    + intros [_ H]. now destruct H.
    + intros _. split; [reflexivity|discriminate].
    + auto.
Qed.

Section SourceBuild.
Import srcbuild.

(** X8.  With no repo root, [Build] from source fails at once: no method
    of the build options is called and the deployer is unchanged. *)
Theorem Build_requires_repo_root : forall b d,
  repoRoot d = "" ->
  Build b d = (Some RequiredRepoRoot, d, []).
Proof.
  intros b d H. unfold Build, verifyBuildFlags. rewrite H. reflexivity.
Qed.

(** X9.  A [Build] from source that fails, at whatever step, leaves the
    version of the deployer as it was. *)
Theorem Build_failure_keeps_version : forall b d e d' t,
  Build b d = (Some e, d', t) -> Version d' = Version d.
Proof.
  intros b d e d' t. unfold Build, verifyBuildFlags.
  destruct (repoRoot d =? ""); [intros [= _ <- _]; reflexivity|].
  cbn [Options set_Options].
  destruct (validates b _); cbn [option_map]; [intros [= _ <- _]; reflexivity|].
  cbn [Options set_Options].
  destruct (builds b _); [|intros [= _ <- _]; reflexivity].
  cbn [StageLocation].
  destruct (negb _); [|discriminate].
  destruct (stages_ b _ _); [intros [= _ <- _]; reflexivity|discriminate].
Qed.

(** X10.  A [Build] from source that succeeds has validated and built
    with the repo root of the deployer stored in the build options; the
    version is the built one without its leading [v], followed by [.0+] and
    the run id; and it was staged, under that version, exactly when a stage
    location is set. *)
Theorem Build_success : forall b d d' t,
  Build b d = (None, d', t) ->
  let o := mkBuildOptions (repoRoot d) (StageLocation (Options d)) in
  exists v,
    repoRoot d <> "" /\
    builds b o = Ok v /\
    Options d' = o /\
    Version d' = (TrimPrefix v "v" ++ ".0+" ++ RunID d)%string /\
    t = [Validate o; Build_ o]
        ++ (if StageLocation (Options d) =? "" then []
            else [Stage o (Version d')]).
Proof.
  intros b d d' t. unfold Build, verifyBuildFlags.
  destruct (String.eqb_spec (repoRoot d) ""); [discriminate|].
  cbn [Options set_Options].
  destruct (validates b _); cbn [option_map]; [discriminate|].
  cbn [Options set_Options RunID].
  destruct (builds b _) as [v|] eqn:B; [|discriminate].
  cbn [StageLocation].
  destruct (StageLocation (Options d) =? ""); cbn [negb].
  - intros [= <- <-]. exists v. cbn. auto.
  - destruct (stages_ b _ _); [discriminate|].
    intros [= <- <-]. exists v. cbn. auto.
Qed.

End SourceBuild.

Example TrimPrefix_v : srcbuild.TrimPrefix "v1.20.0" "v" = "1.20.0".
Proof. reflexivity. Qed.

(** X11.  With a path already stored, [Kubeconfig] of the composite
    deployer returns it: no call, the deployer unchanged. *)
Theorem Kubeconfig_configured : forall w d t,
  capi.kubecfgPath d <> "" ->
  capi.Kubeconfig w d t = (Ok (capi.kubecfgPath d), d, t).
Proof.
  intros w d t H. unfold capi.Kubeconfig, bind, get.
  destruct (String.eqb_spec (capi.kubecfgPath d) ""); [contradiction|reflexivity].
Qed.

(** X12.  When the temporary directory cannot be made, [Kubeconfig]
    returns that error after this one call and stores no path. *)
Theorem Kubeconfig_no_tempdir : forall w d t e,
  let c := TempDir "" "kubetest2-capi" in
  capi.kubecfgPath d = "" ->
  err (respond w (length t) c) = Some e ->
  capi.Kubeconfig w d t = (Err e, d, t ++ [(c, respond w (length t) c)]).
Proof.
  intros w d t e c Hd He. subst c.
  unfold capi.Kubeconfig, call_out, bind, get, call. rewrite Hd. cbn [String.eqb negb].
  cbv zeta. rewrite He. reflexivity.
Qed.

(** X13.  A first [Kubeconfig] that succeeds has made a temporary
    directory, run [clusterctl get kubeconfig <workload cluster name>] with
    no context, and written exactly the bytes it printed to
    [<tmpdir>/kubeconfig.yaml] with permissions 0600; that path is returned
    and stored. *)
Theorem Kubeconfig_fetch : forall w d p d' t,
  capi.kubecfgPath d = "" ->
  capi.Kubeconfig w d [] = (Ok p, d', t) ->
  exists tmpdir lines,
    p = Go.Join [tmpdir; "kubeconfig.yaml"] /\
    d' = capi.set_kubecfgPath p d /\
    map fst t =
      [TempDir "" "kubetest2-capi";
       Cmd_Output (Command "clusterctl"
                     ["get"; "kubeconfig"; capi.workloadClusterName d]);
       WriteFile p lines 384] /\
    answer_to get_kubeconfig t = Some (mkResponse lines None).
Proof.
  intros w d p d' t Hd.
  pattern (capi.Kubeconfig w d []). apply wp_outcome.
  wp_run; try discriminate.
  - rewrite Hd in *. discriminate.
  - intros [= <- <- <-]. exists (out r), (out r0).
    cbn. destruct r0 as [o0 e0]. cbn in *. subst e0. auto.
Qed.

(** X14.  [Down] of the composite deployer leaves the deployer unchanged.
    It runs the cluster delete first; if that fails it stops with its error;
    otherwise it runs [kind delete cluster] and returns the result of that. *)
Theorem Down_outcome : forall w d,
  let del := Down_delete w d in
  let kind_del := ExecJUnit "kind" (kinddeployer.Down_args (capi.kind d))
                    (os_Environ w) in
  let r1 := respond w 0 del in
  let r2 := respond w 2 kind_del in
  let run := capi.Down w d [] in
  receiver_of run = d /\
  match err r1 with
  | Some e => result_of run = Err e /\ map fst (trace_of run) = [del]
  | None =>
      result_of run = match err r2 with Some e => Err e | None => Ok tt end /\
      map fst (trace_of run) =
        [del; Println ("Down(): deleting kind cluster..." ++ nl)%string;
         kind_del]
  end.
Proof.
  intros w d. cbv zeta.
  unfold capi.Down, capi.d_kind, on, kinddeployer.Down, call_err, bind, get,
    world, println, call, ret, fail, Down_delete.
  cbn [length app].
  destruct (err (respond w 0 _)); cbn.
  - destruct d; auto.
  - destruct (err (respond w 2 _)); cbn; destruct d; auto.
Qed.

Ltac flag_cases Hin :=
  cbn in Hin;
  repeat (destruct Hin as [<-|Hin]); try contradiction; cbn;
  repeat match goal with
         | |- context [match ?x with _ => _ end] => destruct x
         end;
  try (intros [= <-]; reflexivity); try discriminate.

Lemma capi_flags_keep_kubecfgPath : forall w opts f v d d',
  In f (snd (capi.New w opts)) -> flag_set f v d = Ok d' ->
  capi.kubecfgPath d' = capi.kubecfgPath d.
Proof. intros w opts f v d d' Hin. flag_cases Hin. Qed.

(** X15.  No flag of the composite deployer stores through
    [kubecfgPath]: after any command line it is empty, so the first
    [Kubeconfig] always fetches. *)
Theorem no_flag_sets_kubecfgPath : forall w opts args d,
  Parse (snd (capi.New w opts)) args (fst (capi.New w opts)) = Ok d ->
  capi.kubecfgPath d = "".
Proof.
  intros w opts args d H.
  refine (Parse_invariant (fun d => capi.kubecfgPath d = "") (fun _ => True)
            (snd (capi.New w opts)) _ args (fst (capi.New w opts)) d _ H
            eq_refl); [|auto].
  intros f v d1 d2 Hin _ Hset Hd1.
  rewrite (capi_flags_keep_kubecfgPath w opts f v d1 d2 Hin Hset). exact Hd1.
Qed.

Lemma kind_flags_keep_fixed : forall w opts f v d d',
  In f (snd (kinddeployer.New w opts)) -> flag_set f v d = Ok d' ->
  kinddeployer.logsDir d' = kinddeployer.logsDir d /\
  kinddeployer.commonOptions d' = kinddeployer.commonOptions d.
Proof.
  intros w opts f v d d' Hin. cbn in Hin.
  repeat (destruct Hin as [<-|Hin]); try contradiction; cbn.
  all: try (intros [= <-]; split; reflexivity).
  destruct (ParseInt w v); intros [= <-]; split; reflexivity.
Qed.

(** X6.  No flag of the bootstrap deployer changes the logs directory or
    the common options: after any command line the logs directory is
    [<artifacts>/logs]. *)
Theorem flags_keep_logs_dir : forall w opts args d,
  Parse (snd (kinddeployer.New w opts)) args (fst (kinddeployer.New w opts))
    = Ok d ->
  kinddeployer.logsDir d = Go.Join [ArtifactsDir opts; "logs"] /\
  kinddeployer.commonOptions d = opts.
Proof.
  intros w opts args d H.
  refine (Parse_invariant
            (fun d => kinddeployer.logsDir d = Go.Join [ArtifactsDir opts; "logs"]
                      /\ kinddeployer.commonOptions d = opts)
            (fun _ => True)
            (snd (kinddeployer.New w opts)) _ args _ d _ H (conj eq_refl eq_refl));
    [|auto].
  intros f v d1 d2 Hin _ Hset [H1 H2].
  destruct (kind_flags_keep_fixed w opts f v d1 d2 Hin Hset) as [-> ->]. auto.
Qed.

Lemma kind_flags_keep_ClusterName : forall w opts f v d d',
  In f (snd (kinddeployer.New w opts)) -> flag_set f v d = Ok d' ->
  flag_name f <> "cluster-name" ->
  kinddeployer.ClusterName d' = kinddeployer.ClusterName d.
Proof.
  intros w opts f v d d' Hin. cbn in Hin.
  repeat (destruct Hin as [<-|Hin]); try contradiction; cbn.
  all: try (intros [= <-]; reflexivity).
  all: try (intros; congruence).
  destruct (ParseInt w v); intros [= <-]; reflexivity.
Qed.

(** X7.  The last [cluster-name] on the command line of the bootstrap
    deployer is the [--name] of [create cluster], of [delete cluster] and of
    [export logs]. *)
Theorem cluster_name_flag_names_every_verb : forall w opts pre post X d,
  (forall n v, In (n, v) post -> n <> "cluster-name") ->
  Parse (snd (kinddeployer.New w opts))
    (pre ++ ("cluster-name", X) :: post) (fst (kinddeployer.New w opts))
    = Ok d ->
  (exists rest, kinddeployer.Up_args d
                = ["create"; "cluster"; "--name"; X] ++ rest) /\
  (exists rest, kinddeployer.Down_args d
                = ["delete"; "cluster"; "--name"; X] ++ rest) /\
  (exists rest, kindverbs.DumpClusterLogs_args d
                = ["export"; "logs"; "--name"; X;
                   Go.Join [ArtifactsDir opts; "logs"]] ++ rest).
Proof.
  intros w opts pre post X d Hpost H.
  destruct (flags_keep_logs_dir w opts _ d H) as [Hlogs _].
  rewrite Parse_app in H.
  destruct (Parse _ pre _) as [d1|] eqn:Hpre; [|discriminate].
  change (Parse (snd (kinddeployer.New w opts)) post
            (kinddeployer.set_ClusterName X d1) = Ok d) in H.
  assert (HN : kinddeployer.ClusterName d = X).
  { refine (Parse_invariant (fun d => kinddeployer.ClusterName d = X)
              (fun n => n <> "cluster-name")
              (snd (kinddeployer.New w opts)) _ post _ d Hpost H eq_refl).
    intros f v d2 d3 Hin N Hset Hd2.
    rewrite (kind_flags_keep_ClusterName w opts f v d2 d3 Hin Hset N).
    exact Hd2. }
  split; [|split].
  - rewrite Up_args_spec. unfold create_cluster_spec. rewrite HN. eauto.
  - unfold kinddeployer.Down_args, append_if. rewrite HN.
    destruct (negb _); eexists; reflexivity.
  - unfold kindverbs.DumpClusterLogs_args, append_if. rewrite HN, Hlogs.
    destruct (negb _); eexists; reflexivity.
Qed.

Lemma final_app : forall t e, final (t ++ [e]) = Some e.
Proof.
  induction t as [|a t IH]; intros e; [reflexivity|].
  cbn [app final]. destruct (t ++ [e]) eqn:E.
  - destruct t; discriminate.
  - rewrite <- E. apply IH.
Qed.

Lemma final_app_ne : forall t new, new <> [] -> final (t ++ new) = final new.
Proof.
  intros t new H. destruct (exists_last H) as (l & e & ->).
  rewrite app_assoc, !final_app. reflexivity.
Qed.

Lemma set_kubecfgPath_same : forall s,
  capi.set_kubecfgPath (capi.kubecfgPath s) s = s.
Proof. destruct s; reflexivity. Qed.

Lemma set_kind_same : forall s, capi.set_kind (capi.kind s) s = s.
Proof. destruct s; reflexivity. Qed.

(** What else the rest of [Up] adds to the history, and what it does to the
    receiver. *)
Lemma Up_rest_more : forall T d w s t,
  wp (Up_rest (WithTimeout T) d w) w s t
    (fun x => exists new,
       trace_of x = t ++ new /\ new <> [] /\
       forallb passed (removelast new) = true /\
       match result_of x with
       | Ok _ => forallb passed new = true /\
                 In (ready_wait w d T) (map fst new) /\
                 started new = [render_cmd d T; apply_cmd d T] /\
                 (capi.installCalico d = true ->
                  capi.kubecfgPath (receiver_of x) <> "" /\
                  invoked (passes "kubectl" "--kubeconfig"
                             (capi.kubecfgPath (receiver_of x))) new = true)
       | Err e => exists c r, final new = Some (c, r) /\ err r = Some e /\
                             provider_query c = false
       end /\
       (exists n, started new = firstn n [render_cmd d T; apply_cmd d T]) /\
       invoked (program "kind") new = false /\
       capi.set_kubecfgPath (capi.kubecfgPath (receiver_of x)) s
         = receiver_of x /\
       (capi.installCalico d = false ->
        receiver_of x = s /\ written new = [] /\
        count get_kubeconfig new = 0)).
Proof.
  intros T d w s t.
  wp_rest.
  all: (eexists; split; [cbn [trace_of snd]; flat; reflexivity|]).
  all: (split; [discriminate|]).
  all: repeat match goal with
              | H : _ = respond _ _ _ |- _ => clear H
              end.
  all: unfold passed; cbn [removelast forallb fst snd result_of receiver_of
                           err out].
  all: repeat match goal with
              | H : err ?r = _ |- context [err ?r] => rewrite H
              end.
  all: cbn.
  all: rewrite ?set_kubecfgPath_same.
  all: repeat match goal with
              | |- _ /\ _ => split
              | |- _ = _ => reflexivity
              | |- _ -> _ => intro
              end.
  all: try congruence.
  all: try (eexists; eexists; split; [reflexivity|split; [assumption|reflexivity]]).
  all: try (exists 0; reflexivity).
  all: try (exists 1; reflexivity).
  all: try (exists 2; reflexivity).
  all: try tauto.
  all: try (rewrite String.eqb_refl; reflexivity).
  all: try (apply Join_kubeconfig_nonempty).
  all: try (match goal with
            | H : negb (?p =? "") = true |- ?p <> "" =>
                intros E; rewrite E in H; discriminate H
            end).
Qed.

Lemma started_app : forall a b, started (a ++ b) = started a ++ started b.
Proof.
  induction a as [|[c r] a IH]; intros b; cbn; [reflexivity|].
  rewrite IH. destruct c; reflexivity.
Qed.

Lemma written_app : forall a b, written (a ++ b) = written a ++ written b.
Proof.
  induction a as [|[c r] a IH]; intros b; cbn; [reflexivity|].
  rewrite IH. destruct c; reflexivity.
Qed.

Lemma invoked_app : forall p a b,
  invoked p (a ++ b) = invoked p a || invoked p b.
Proof. intros. unfold invoked. now rewrite map_app, existsb_app. Qed.

Arguments passes : simpl never.

Lemma Up_run_more : forall w d,
  let run := capi.Up w d [] in
  match ParseDuration w (capi.upTimeout d) with
  | Err e => run = (Err e, d, [])
  | Ok T =>
    let t := trace_of run in
    forallb passed (removelast t) = true /\
    match result_of run with
    | Ok _ => forallb passed t = true /\
              In (ready_wait w d T) (map fst t) /\
              started t = [render_cmd d T; apply_cmd d T] /\
              (capi.installCalico d = true ->
               capi.kubecfgPath (receiver_of run) <> "" /\
               invoked (passes "kubectl" "--kubeconfig"
                          (capi.kubecfgPath (receiver_of run))) t = true)
    | Err e => exists c r, final t = Some (c, r) /\
                 if provider_query c
                 then goes_on r = false /\ e = query_failure r
                 else err r = Some e
    end /\
    (exists n, started t = firstn n [render_cmd d T; apply_cmd d T]) /\
    (capi.useExistingCluster d = true ->
     invoked (program "kind") t = false) /\
    (capi.useExistingCluster d = false ->
     map fst (firstn 2 t) =
     [Println ("Up(): creating kind cluster..." ++ nl)%string;
      ExecJUnit "kind" (kinddeployer.Up_args (capi.kind d)) (os_Environ w)]) /\
    capi.set_kubecfgPath (capi.kubecfgPath (receiver_of run)) d
      = receiver_of run /\
    (capi.installCalico d = false ->
     receiver_of run = d /\ written t = [] /\ count get_kubeconfig t = 0)
  end.
Proof.
  intros w d run. subst run.
  pattern (capi.Up w d []). apply wp_outcome.
  wp_run.
  all: lazymatch goal with
       | |- wp (bind (println "waiting for CAPI to start") _) ?w ?s ?t _ =>
           lazymatch goal with
           | H : ParseDuration w (capi.upTimeout ?d) = Ok ?T |- _ =>
               refine (wp_mono w s t _ _ _ (Up_rest_more T d w s t) _);
               intros [[res s'] t'];
               cbn [trace_of result_of receiver_of fst snd];
               intros (new & -> & Hne & Hpass & Hres & Hst & Hkind & Hrec
                       & Hnocal)
           end
       | |- _ => idtac
       end.
  all: repeat match goal with
              | H : _ = respond _ _ _ |- _ => clear H
              end.
  all: cbv beta iota; cbn [trace_of result_of receiver_of fst snd].
  all: try reflexivity.
  all: rewrite ?set_kind_same in *.
  all: repeat match goal with
              | H : negb _ = true |- _ => apply negb_true_iff in H
              | H : negb _ = false |- _ => apply negb_false_iff in H
              | H : (String.length _ =? 0)%nat = _ |- _ =>
                  rewrite length_zero in H
              end.
  all: try (rewrite (removelast_app _ Hne), (final_app_ne _ _ Hne)).
  all: rewrite ?forallb_app, ?started_app, ?written_app, ?invoked_app,
         ?count_app, ?map_app.
  all: try (destruct res as [[]|e'];
            [destruct Hres as (Hall & Hready & Hboth & Hcal)
            |destruct Hres as (c' & r' & Hfin & Herr & Hnq)]).
  all: repeat match goal with
              | |- _ /\ _ => split
              | |- _ -> _ => intro
              end.
  all: try congruence.
  all: try reflexivity.
  all: try (apply in_or_app; right; assumption).
  all: try (destruct (Hcal ltac:(assumption)) as [A B];
            first [exact A|rewrite B; apply orb_true_r]).
  all: try (destruct (Hnocal ltac:(assumption)) as (A & B & C);
            first [exact A|rewrite B; reflexivity|rewrite C; reflexivity]).
  all: try (exists c', r'; split; [assumption|]; rewrite Hnq; assumption).
  all: try apply set_kubecfgPath_same.
  all: try (eexists; eexists; split; [reflexivity|]).
  all: unfold passed, goes_on, not_found, query_failure.
  all: cbn.
  all: repeat match goal with
              | H : err ?r = _ |- context [err ?r] => rewrite H
              end.
  all: repeat match goal with
              | H : Go.Contains ?x ?y = _ |- context [Go.Contains ?x ?y] =>
                  rewrite H
              end.
  all: cbn.
  all: try reflexivity.
  all: try assumption.
  all: try (split; reflexivity).
  all: try (exists 0; reflexivity).
Qed.

(** X16.  When the up timeout is no duration, [Up] returns the parse
    error before any call, the bootstrap create included. *)
Theorem Up_bad_timeout : forall w d t e,
  ParseDuration w (capi.upTimeout d) = Err e ->
  capi.Up w d t = (Err e, d, t).
Proof.
  intros w d t e H. unfold capi.Up, bind, get, world, fail. rewrite H.
  reflexivity.
Qed.

Lemma Up_bad_timeout_witness :
  capi.Up calm (capi.set_upTimeout "soon" default_capi) []
  = (Err (OtherError "time: invalid duration"),
     capi.set_upTimeout "soon" default_capi, []).
Proof.
  exact (Up_bad_timeout calm (capi.set_upTimeout "soon" default_capi) [] _
           eq_refl).
Defined.

(** X17.  [Up] stops at its first failure: every call but the last went
    well (the provider query may have failed on the missing resource type);
    a run that succeeds has no other failed call; a run that fails returns
    the error of its last call, wrapped when that call is the provider
    query. *)
Theorem Up_first_failure : forall w d T,
  let run := capi.Up w d [] in
  ParseDuration w (capi.upTimeout d) = Ok T ->
  forallb passed (removelast (trace_of run)) = true /\
  match result_of run with
  | Ok _ => forallb passed (trace_of run) = true
  | Err e => exists c r, final (trace_of run) = Some (c, r) /\
               if provider_query c
               then goes_on r = false /\ e = query_failure r
               else err r = Some e
  end.
Proof.
  intros w d T run HT. subst run.
  pose proof (Up_run_more w d) as H. cbv zeta in H. rewrite HT in H.
  destruct H as (H1 & H2 & _). split; [exact H1|].
  destruct (result_of (capi.Up w d [])); [apply H2|exact H2].
Qed.

Lemma Up_first_failure_witness :
  let run := capi.Up (answering init timed_out) default_capi [] in
  result_of run = Err (ExitError "error: timed out waiting for the condition")
  /\ forallb passed (removelast (trace_of run)) = true
  /\ option_map fst (final (trace_of run))
     = Some (Up_init calm default_capi 1800000000000).
Proof.
  intros run. split; [reflexivity|].
  split; [|reflexivity].
  exact (proj1 (Up_first_failure (answering init timed_out) default_capi
                  1800000000000 eq_refl)).
Defined.

(** X18.  With [use-existing-cluster], [Up] runs no kind command. *)
Theorem Up_existing_cluster : forall w d,
  capi.useExistingCluster d = true ->
  invoked (program "kind") (trace_of (capi.Up w d [])) = false.
Proof.
  intros w d Hd. pose proof (Up_run_more w d) as H. cbv zeta in H.
  destruct (ParseDuration w (capi.upTimeout d)).
  - destruct H as (_ & _ & _ & H & _). auto.
  - rewrite H. reflexivity.
Qed.

Lemma Up_existing_cluster_witness :
  invoked (program "kind")
    (trace_of (capi.Up calm (capi.set_useExistingCluster true default_capi) []))
  = false.
Proof.
  exact (Up_existing_cluster calm
           (capi.set_useExistingCluster true default_capi) eq_refl).
Defined.

(** X19.  Without [use-existing-cluster], the first call of [Up] after
    its banner is [kind create cluster ...] of the bootstrap deployer. *)
Theorem Up_creates_bootstrap_first : forall w d T,
  capi.useExistingCluster d = false ->
  ParseDuration w (capi.upTimeout d) = Ok T ->
  map fst (firstn 2 (trace_of (capi.Up w d []))) =
  [Println ("Up(): creating kind cluster..." ++ nl)%string;
   ExecJUnit "kind" (create_cluster_spec (capi.kind d)) (os_Environ w)].
Proof.
  intros w d T Hd HT. pose proof (Up_run_more w d) as H. cbv zeta in H.
  rewrite HT in H. destruct H as (_ & _ & _ & _ & H & _).
  rewrite <- Up_args_spec. auto.
Qed.

Lemma Up_creates_bootstrap_first_witness :
  map fst (firstn 2 (trace_of (capi.Up calm default_capi []))) =
  [Println ("Up(): creating kind cluster..." ++ nl)%string;
   ExecJUnit "kind" ["create"; "cluster"; "--name"; "kind-kubetest2"]
     (os_Environ calm)].
Proof.
  exact (Up_creates_bootstrap_first calm default_capi 1800000000000
           eq_refl eq_refl).
Defined.

(** X20.  [Up] changes nothing of the deployer but the stored kubeconfig
    path; without [install-calico] it changes nothing at all, fetches no
    kubeconfig and writes no file. *)
Theorem Up_keeps_configuration : forall w d,
  let run := capi.Up w d [] in
  capi.set_kubecfgPath (capi.kubecfgPath (receiver_of run)) d
    = receiver_of run /\
  (capi.installCalico d = false ->
   receiver_of run = d /\ written (trace_of run) = [] /\
   count get_kubeconfig (trace_of run) = 0).
Proof.
  intros w d run. subst run. pose proof (Up_run_more w d) as H.
  cbv zeta in H. destruct (ParseDuration w (capi.upTimeout d)).
  - destruct H as (_ & _ & _ & _ & _ & H1 & H2). auto.
  - rewrite H. cbn. split; [apply set_kubecfgPath_same|auto].
Qed.

(** X21.  The commands [Up] starts are, in this order, the render command
    [clusterctl config cluster <workload cluster name> --infrastructure P
    --kubernetes-version V --worker-machine-count W
    --control-plane-machine-count C --flavor F], every option passed even
    when empty, with the process's standard error, and [kubectl apply -f -]
    reading its pipe; a run that succeeds has started both and has waited
    for [cluster/<workload cluster name>] to be ready. *)
Theorem Up_pipe_commands : forall w d T,
  let run := capi.Up w d [] in
  ParseDuration w (capi.upTimeout d) = Ok T ->
  (exists n, started (trace_of run)
             = firstn n [render_cmd d T; apply_cmd d T]) /\
  (failed (result_of run) = false ->
   started (trace_of run) = [render_cmd d T; apply_cmd d T] /\
   In (ready_wait w d T) (map fst (trace_of run))).
Proof.
  intros w d T run HT. subst run.
  pose proof (Up_run_more w d) as H. cbv zeta in H. rewrite HT in H.
  destruct H as (_ & H2 & H3 & _). split; [exact H3|].
  destruct (result_of (capi.Up w d [])); [|discriminate].
  intros _. destruct H2 as (_ & A & B & _). auto.
Qed.

Lemma Up_pipe_commands_witness :
  started (trace_of (capi.Up calm default_capi []))
  = [render_cmd default_capi 1800000000000;
     apply_cmd default_capi 1800000000000].
Proof.
  exact (proj1 (proj2 (Up_pipe_commands calm default_capi 1800000000000
                         eq_refl) eq_refl)).
Defined.

(** X22.  After an [Up] with [install-calico] that succeeds, [Kubeconfig]
    returns, without any call, the path that [Up] handed to kubectl as
    [--kubeconfig]. *)
Theorem Up_then_Kubeconfig : forall w d,
  let run := capi.Up w d [] in
  let d' := receiver_of run in
  failed (result_of run) = false ->
  capi.installCalico d = true ->
  capi.Kubeconfig w d' (trace_of run)
    = (Ok (capi.kubecfgPath d'), d', trace_of run) /\
  invoked (passes "kubectl" "--kubeconfig" (capi.kubecfgPath d'))
    (trace_of run) = true.
Proof.
  intros w d run d' Hok Hcal. subst d' run.
  pose proof (Up_run_more w d) as H. cbv zeta in H.
  destruct (ParseDuration w (capi.upTimeout d)).
  - destruct H as (_ & H & _).
    destruct (result_of (capi.Up w d [])); [|discriminate].
    destruct H as (_ & _ & _ & H). destruct (H Hcal) as [A B].
    split; [apply Kubeconfig_configured; exact A|exact B].
  - rewrite H in Hok. discriminate.
Qed.

Lemma Up_then_Kubeconfig_witness :
  let d := capi.set_installCalico true default_capi in
  let run := capi.Up calm d [] in
  result_of (capi.Kubeconfig calm (receiver_of run) (trace_of run))
  = Ok "/tmp/kubetest2-capi042/kubeconfig.yaml".
Proof.
  intros d run.
  exact (f_equal result_of
           (proj1 (Up_then_Kubeconfig calm d eq_refl eq_refl))).
Defined.

Lemma Build_requires_repo_root_witness :
  srcbuild.Build sample_Builder
    (srcbuild.mkdeployer "run-42" (srcbuild.mkBuildOptions "" "") "" "")
  = (Some srcbuild.RequiredRepoRoot,
     srcbuild.mkdeployer "run-42" (srcbuild.mkBuildOptions "" "") "" "", []).
Proof.
  exact (Build_requires_repo_root sample_Builder
           (srcbuild.mkdeployer "run-42" (srcbuild.mkBuildOptions "" "") "" "")
           eq_refl).
Defined.

Lemma Build_failure_keeps_version_witness :
  srcbuild.Version
    (snd (fst (srcbuild.Build broken_Builder sample_source))) = "".
Proof.
  exact (Build_failure_keeps_version broken_Builder sample_source
           (srcbuild.Returned (ExitError "make: *** [all] Error 2"))
           (snd (fst (srcbuild.Build broken_Builder sample_source)))
           (snd (srcbuild.Build broken_Builder sample_source))
           eq_refl).
Defined.

Lemma Build_success_witness :
  exists v,
    srcbuild.builds sample_Builder
      (srcbuild.mkBuildOptions "/src/k8s" "gs://bucket/ci") = Ok v /\
    srcbuild.Version (snd (fst (srcbuild.Build sample_Builder sample_source)))
    = (srcbuild.TrimPrefix v "v" ++ ".0+" ++ "run-42")%string.
Proof.
  destruct (Build_success sample_Builder sample_source
              (snd (fst (srcbuild.Build sample_Builder sample_source)))
              (snd (srcbuild.Build sample_Builder sample_source)) eq_refl)
    as (v & _ & B & _ & V & _).
  exists v. split; [exact B|exact V].
Defined.

Lemma Kubeconfig_configured_witness :
  capi.Kubeconfig calm (capi.set_kubecfgPath "/home/ci/kubeconfig" default_capi) []
  = (Ok "/home/ci/kubeconfig",
     capi.set_kubecfgPath "/home/ci/kubeconfig" default_capi, []).
Proof.
  refine (Kubeconfig_configured calm
            (capi.set_kubecfgPath "/home/ci/kubeconfig" default_capi) [] _).
  discriminate.
Defined.

Lemma Kubeconfig_no_tempdir_witness :
  capi.Kubeconfig (answering is_TempDir no_space) default_capi []
  = (Err (OtherError "mkdir /tmp/kubetest2-capi042: no space left on device"),
     default_capi, [(TempDir "" "kubetest2-capi", no_space)]).
Proof.
  exact (Kubeconfig_no_tempdir (answering is_TempDir no_space) default_capi []
           _ eq_refl eq_refl).
Defined.

Lemma Kubeconfig_fetch_witness :
  exists tmpdir lines,
    "/tmp/kubetest2-capi042/kubeconfig.yaml"
    = Go.Join [tmpdir; "kubeconfig.yaml"] /\
    answer_to get_kubeconfig (trace_of (capi.Kubeconfig calm default_capi []))
    = Some (mkResponse lines None).
Proof.
  destruct (Kubeconfig_fetch calm default_capi
              "/tmp/kubetest2-capi042/kubeconfig.yaml"
              (receiver_of (capi.Kubeconfig calm default_capi []))
              (trace_of (capi.Kubeconfig calm default_capi []))
              eq_refl eq_refl) as (tmp & lines & A & _ & _ & B).
  exists tmp, lines. split; [exact A|exact B].
Defined.

Lemma no_flag_sets_kubecfgPath_witness :
  exists d,
    Parse (snd (capi.New calm sample_Options))
      [("provider", "aws"); ("kubeconfig", "/home/ci/kind.yaml");
       ("install-calico", "true")]
      (fst (capi.New calm sample_Options)) = Ok d /\
    capi.kubecfgPath d = "".
Proof.
  eexists. split; [reflexivity|].
  exact (no_flag_sets_kubecfgPath calm sample_Options
           [("provider", "aws"); ("kubeconfig", "/home/ci/kind.yaml");
            ("install-calico", "true")] _ eq_refl).
Defined.

Lemma flags_keep_logs_dir_witness :
  exists d,
    Parse (snd (kinddeployer.New calm sample_Options))
      [("cluster-name", "ci"); ("verbosity", "3")]
      (fst (kinddeployer.New calm sample_Options)) = Ok d /\
    kinddeployer.logsDir d = "/artifacts/logs".
Proof.
  eexists. split; [reflexivity|].
  exact (proj1 (flags_keep_logs_dir calm sample_Options
                  [("cluster-name", "ci"); ("verbosity", "3")] _ eq_refl)).
Defined.

Lemma cluster_name_flag_names_every_verb_witness :
  exists d,
    Parse (snd (kinddeployer.New calm sample_Options))
      ([("loglevel", "debug")] ++ ("cluster-name", "ci") :: [("verbosity", "3")])
      (fst (kinddeployer.New calm sample_Options)) = Ok d /\
    exists rest, kinddeployer.Down_args d
                 = ["delete"; "cluster"; "--name"; "ci"] ++ rest.
Proof.
  eexists. split; [reflexivity|].
  refine (proj1 (proj2 (cluster_name_flag_names_every_verb calm sample_Options
            [("loglevel", "debug")] [("verbosity", "3")] "ci" _ _ eq_refl))).
  intros n v [[= <- <-]|[]]. discriminate.
Defined.
